(** * oauth2kit: the token lifecycle of [Manager]

    A shallow embedding of [oauth2.go]: the token store ([store], [load]),
    the configuration helpers ([oauth2Config], [buildRedirectURL]), the
    browser launcher ([openURL]) and the two entry points [GetToken] and
    [NewOAuth2Client].

    The Go code is effectful; it is embedded as a state monad over a
    [World] made of the file system and the chronological trace of the
    calls made to the collaborators (logger, writers, net/http, os/exec,
    golang.org/x/oauth2).  Whatever the collaborators answer is read from
    an [Env]: the theorems quantify over it. *)

From Stdlib Require Import ZArith String Ascii List Lia DecimalString DecimalZ.
From stdpp Require Import base gmap strings.

Local Open Scope string_scope.
Local Open Scope Z_scope.

(* ------------------------------------------------------------------ *)
(** ** Errors *)

(** The [syscall.Errno] values that matter to the token file. *)
Inductive Errno := ENOENT | EACCES | ENOTDIR | EISDIR | EROFS | ENOSPC | EIO.

Definition Errno_Error (e : Errno) : string :=
  match e with
  | ENOENT => "no such file or directory"
  | EACCES => "permission denied"
  | ENOTDIR => "not a directory"
  | EISDIR => "is a directory"
  | EROFS => "read-only file system"
  | ENOSPC => "no space left on device"
  | EIO => "input/output error"
  end.

(** Go's [error] values, as far as this package builds or inspects them:
    [*fs.PathError] from package os, the errors of encoding/json, plain
    message errors (fmt.Errorf without %w, errors of net/http, os/exec and
    oauth2) and fmt.Errorf("prefix: %w", err). *)
Inductive error :=
| PathError (op path : string) (errno : Errno)
| jsonError (msg : string)
| errorString (msg : string)
| wrapError (prefix : string) (err : error).

Fixpoint Error (e : error) : string :=
  match e with
  | PathError op path errno => op +:+ " " +:+ path +:+ ": " +:+ Errno_Error errno
  | jsonError msg => msg
  | errorString msg => msg
  | wrapError prefix err => prefix +:+ ": " +:+ Error err
  end.

(** [os.IsNotExist]: it looks through a [*PathError] only, never through
    an error wrapped by fmt.Errorf. *)
Definition os_IsNotExist (e : error) : bool :=
  match e with
  | PathError _ _ ENOENT => true
  | _ => false
  end.

(** A collaborator's answer: a value, or an error of type [E]. *)
Inductive result (E A : Type) : Type :=
| Ok (a : A)
| Err (e : E).
Arguments Ok {E A} a.
Arguments Err {E A} e.

(* ------------------------------------------------------------------ *)
(** ** Data *)

(** [time.Time] as an instant: nanoseconds since the zero Time. *)
Definition Time := Z.

Definition Time_IsZero (t : Time) : bool := t =? 0.

Definition Second : Z := 1000000000.

(** [oauth2.Token]. *)
Record Token := {
  AccessToken : string;
  TokenType : string;
  RefreshToken : string;
  Expiry : Time;
}.

(** [&oauth2.Token{}]. *)
Definition zeroToken : Token :=
  {| AccessToken := ""; TokenType := ""; RefreshToken := ""; Expiry := 0 |}.

(** [oauth2.Endpoint]. *)
Record Endpoint := {
  AuthURL : string;
  DeviceAuthURL : string;
  TokenURL : string;
  AuthStyle : Z;
}.

(** [oauth2.Config]. *)
Record oauth2_Config := {
  o_ClientID : string;
  o_ClientSecret : string;
  o_Endpoint : Endpoint;
  o_RedirectURL : string;
  o_Scopes : list string;
}.

(** The [oauth2.AuthCodeOption] values the package passes. *)
Inductive AuthCodeOption :=
| AccessTypeOffline
| S256ChallengeOption (verifier : string)
| VerifierOption (verifier : string).

(** [Config]. *)
Record Config := {
  ClientID : string;
  ClientSecret : string;
  Scopes : list string;
  Endpoint_ : Endpoint;
  ServerPath : string;
  LocalAddr : string;
  TokenFile : string;
}.

(** Where informational messages go: [os.Stdout] or the caller's writer. *)
Inductive Writer := Stdout | CustomWriter (id : nat).

(** [Manager].  The logger repository is not a field of the model: a
    logger obtained from it (the standard one when none is set) is
    represented by the log records it is asked to emit. *)
Record Manager := {
  Config_ : Config;
  Writer_ : option Writer;
}.

Definition defaultLocalAddr : string := ":15440".
Definition defaultServerPath : string := "/callback".

(* ------------------------------------------------------------------ *)
(** ** The world *)

(** What a path of the file system holds.  A path outside the map has no
    entry and can be created. *)
Inductive node :=
| File (data : string) (rd wr : bool)
    (** a regular file, with the caller's read and write permission *)
| Absent (create : Errno)
    (** no entry, and creating one fails with [create] *)
| Broken (errno : Errno).
    (** every operation on the path fails with [errno] *)

Inductive Level := LevelDebug | LevelWarn | LevelError.

(** What the first of the three racing sources of the select delivers. *)
Inductive Signal :=
| Redirect (code : string)
    (** a request on the callback path; [code] is its code query
        parameter, empty when the parameter is missing *)
| ServeError (err : error)
    (** ListenAndServe returned something else than ErrServerClosed *)
| Timeout.
    (** five minutes passed *)

(** Calls to the collaborators, in the order they are made.  A run starts
    in a process whose default mux has no handler on the callback path
    yet. *)
Inductive Event :=
| EvLog (lvl : Level) (msg : string)
| EvWrite (w : Writer) (text : string)
| EvAuthCodeURL (c : oauth2_Config) (state : string) (opts : list AuthCodeOption)
| EvHandleFunc (pattern : string)
| EvListenAndServe (addr : string)
| EvStart (name : string) (args : list string)
| EvRespond (body : string)
| EvShutdown
| EvExchange (c : oauth2_Config) (code : string) (opts : list AuthCodeOption)
| EvRefresh (c : oauth2_Config) (refreshToken : string).

Record World := {
  fs : gmap string node;
  trace : list Event;
}.

(** The behaviour of everything outside the package during one call. *)
Record Env := {
  (** encoding/json: the bytes [Encode] writes for a token, or why it
      cannot be marshalled *)
  json_Marshal : Token -> result string string;
  (** encoding/json: [Decode] of the file's bytes into a token, and the
      error it reports *)
  json_Decode : string -> Token -> Token * option string;
  (** os: [None] when a write goes through; [Some (n, e)] when it fails
      with [e] after [n] bytes *)
  write_fault : option (nat * Errno);
  (** runtime.GOOS *)
  GOOS : string;
  (** os/exec: what starting a command returns *)
  exec_Start : string -> list string -> option error;
  (** time.Now *)
  timeNow : Time;
  (** oauth2.GenerateVerifier *)
  GenerateVerifier : string;
  (** oauth2: Config.AuthCodeURL *)
  AuthCodeURL : oauth2_Config -> string -> list AuthCodeOption -> string;
  (** oauth2: Config.Exchange, the token endpoint's answer to an
      authorization-code grant *)
  Exchange : oauth2_Config -> string -> list AuthCodeOption -> result error Token;
  (** the token endpoint's answer to a refresh-token grant *)
  retrieveToken : oauth2_Config -> string -> result error Token;
  (** net/http: the outcome of the wait, and of Server.Shutdown *)
  first_signal : Signal;
  Shutdown : option error;
}.

(** ** The state monad *)

Definition M (A : Type) : Type := World -> A * World.

Definition ret {A} (a : A) : M A := fun w => (a, w).

Definition bind {A B} (m : M A) (k : A -> M B) : M B :=
  fun w => let '(a, w') := m w in k a w'.

Declare Scope go_scope.
Delimit Scope go_scope with go.
Notation "'do' x <- m ; k" := (bind m (fun x => k))
  (at level 10, x name, m at level 100, k at level 200) : go_scope.
Notation "'do' ' p <- m ; k" := (bind m (fun x => let 'p := x in k))
  (at level 10, p strict pattern, m at level 100, k at level 200) : go_scope.
Notation "'run' m ; k" := (bind m (fun _ => k))
  (at level 10, m at level 100, k at level 200) : go_scope.
Local Open Scope go_scope.

Definition emit (ev : Event) : M unit :=
  fun w => (tt, {| fs := fs w; trace := trace w ++ [ev] |}).

Definition get_node (path : string) : M (option node) :=
  fun w => (fs w !! path, w).

Definition set_node (path : string) (n : node) : M unit :=
  fun w => (tt, {| fs := <[path := n]> (fs w); trace := trace w |}).

Definition log (lvl : Level) (msg : string) : M unit := emit (EvLog lvl msg).

(** The line feed that Println and Fprintln append. *)
Definition nl : string := String (Ascii.ascii_of_nat 10) "".

(* ------------------------------------------------------------------ *)
(** ** Package os, on the token file *)

(** An open [*os.File], named by its path. *)
Definition fd := string.

(** [os.Stat]. *)
Definition os_Stat (path : string) : M (option error) :=
  do n <- get_node path;
  match n with
  | Some (File _ _ _) => ret None
  | None | Some (Absent _) => ret (Some (PathError "stat" path ENOENT))
  | Some (Broken e) => ret (Some (PathError "stat" path e))
  end.

(** [os.Open]: read only. *)
Definition os_Open (path : string) : M (result error fd) :=
  do n <- get_node path;
  match n with
  | Some (File _ rd _) =>
      if rd then ret (Ok path)
      else ret (Err (PathError "open" path EACCES))
  | None | Some (Absent _) => ret (Err (PathError "open" path ENOENT))
  | Some (Broken e) => ret (Err (PathError "open" path e))
  end.

(** [os.OpenFile(path, os.O_RDWR|os.O_CREATE|os.O_TRUNC, 0600)]: an
    existing file is emptied as soon as it is opened; a new one belongs to
    the caller, who may read and write it. *)
Definition os_OpenFile (path : string) : M (result error fd) :=
  do n <- get_node path;
  match n with
  | Some (File _ rd wr) =>
      if rd && wr then run set_node path (File "" rd wr); ret (Ok path)
      else ret (Err (PathError "open" path EACCES))
  | None => run set_node path (File "" true true); ret (Ok path)
  | Some (Absent e) | Some (Broken e) => ret (Err (PathError "open" path e))
  end.

(** The first [n] bytes of [s]. *)
Fixpoint take_bytes (n : nat) (s : string) : string :=
  match n, s with
  | S n', String c s' => String c (take_bytes n' s')
  | _, _ => ""
  end.

(** Writing [data] at the start of the freshly opened file [f]. *)
Definition File_Write (env : Env) (f : fd) (data : string) : M (option error) :=
  do n <- get_node f;
  match n with
  | Some (File _ rd wr) =>
      match write_fault env with
      | None => run set_node f (File data rd wr); ret None
      | Some (k, e) =>
          run set_node f (File (take_bytes k data) rd wr);
          ret (Some (PathError "write" f e))
      end
  | _ => ret (Some (PathError "write" f EIO))
  end.

(** Everything that can be read from the open file [f]. *)
Definition File_contents (f : fd) : M string :=
  do n <- get_node f;
  match n with
  | Some (File data _ _) => ret data
  | _ => ret ""
  end.

(** [json.NewEncoder(f).Encode(token)]: the value is marshalled first and
    written in one piece. *)
Definition json_Encode (env : Env) (f : fd) (token : Token) : M (option error) :=
  match json_Marshal env token with
  | Err msg => ret (Some (jsonError msg))
  | Ok data => File_Write env f data
  end.

(** [json.NewDecoder(f).Decode(token)]: the token as far as it was filled
    in, and the error. *)
Definition json_Decoder_Decode (env : Env) (f : fd) (token : Token)
  : M (Token * option error) :=
  do data <- File_contents f;
  let '(token', err) := json_Decode env data token in
  ret (token', option_map jsonError err).

(* ------------------------------------------------------------------ *)
(** ** Helper functions of the package *)

(** oauth2.go, lines 276-283. *)
Definition store (env : Env) (fileName : string) (token : Token) : M (option error) :=
  do f <- os_OpenFile fileName;
  match f with
  | Err err => ret (Some err)
  | Ok f => json_Encode env f token
  end.

(** oauth2.go, lines 285-294. *)
Definition load (env : Env) (fileName : string) : M (option Token * option error) :=
  do f <- os_Open fileName;
  match f with
  | Err err => ret (None, Some err)
  | Ok f =>
      do '(token, err) <- json_Decoder_Decode env f zeroToken;
      ret (Some token, err)
  end.

(** oauth2.go, lines 265-274. *)
Definition openURL (env : Env) (url : string) : M (option error) :=
  let os := GOOS env in
  let '(name, args) :=
    if String.eqb os "windows" then ("rundll32", ["url.dll,FileProtocolHandler"; url])
    else if String.eqb os "darwin" then ("open", [url])
    else ("xdg-open", [url]) in
  run emit (EvStart name args);
  ret (exec_Start env name args).

(* ------------------------------------------------------------------ *)
(** ** Config *)

(** oauth2.go, lines 253-259. *)
Definition buildRedirectURL (c : Config) : string :=
  let localAddr := LocalAddr c in
  let localAddr := if String.eqb localAddr "" then defaultLocalAddr else localAddr in
  "http://localhost" +:+ localAddr +:+ "/callback".

(** oauth2.go, lines 243-251. *)
Definition oauth2Config (c : Config) : oauth2_Config :=
  {| o_ClientID := ClientID c;
     o_ClientSecret := ClientSecret c;
     o_Endpoint := Endpoint_ c;
     o_RedirectURL := buildRedirectURL c;
     o_Scopes := Scopes c |}.

Definition oauth2ConfigOAuth2 (m : Manager) : oauth2_Config :=
  oauth2Config (Config_ m).

(** oauth2.go, lines 72-77. *)
Definition GetWriter (m : Manager) : Writer :=
  match Writer_ m with
  | Some w => w
  | None => Stdout
  end.

(* ------------------------------------------------------------------ *)
(** ** The token source of golang.org/x/oauth2

    [Config.TokenSource] returns a source that hands out its token while
    the token is valid and asks the token endpoint for a new one, with the
    refresh token, once it is not. *)

Definition expiryDelta : Z := 10 * Second.

Definition Token_expired (now : Time) (t : Token) : bool :=
  if Time_IsZero (Expiry t) then false
  else Expiry t - expiryDelta <? now.

Definition Token_Valid (now : Time) (t : Token) : bool :=
  negb (String.eqb (AccessToken t) "") && negb (Token_expired now t).

Record TokenSource := {
  ts_conf : oauth2_Config;
  ts_t : Token;
  ts_refreshToken : string;
}.

Definition Config_TokenSource (c : oauth2_Config) (t : Token) : TokenSource :=
  {| ts_conf := c; ts_t := t; ts_refreshToken := RefreshToken t |}.

Definition TokenSource_Token (env : Env) (ts : TokenSource)
  : M (result error Token * TokenSource) :=
  if Token_Valid (timeNow env) (ts_t ts) then ret (Ok (ts_t ts), ts)
  else if String.eqb (ts_refreshToken ts) "" then
    ret (Err (errorString "oauth2: token expired and refresh token is not set"), ts)
  else
    run emit (EvRefresh (ts_conf ts) (ts_refreshToken ts));
    match retrieveToken env (ts_conf ts) (ts_refreshToken ts) with
    | Err err => ret (Err err, ts)
    | Ok tk =>
        ret (Ok tk, {| ts_conf := ts_conf ts; ts_t := tk;
                       ts_refreshToken := RefreshToken tk |})
    end.

(** [*http.Client] as [oauth2.NewClient] builds it: requests carry the
    token its source holds. *)
Record Client := { Source : TokenSource }.

Definition oauth2_NewClient (ts : TokenSource) : Client := {| Source := ts |}.

(* ------------------------------------------------------------------ *)
(** ** Manager *)

(** [Manager.TokenSource], lines 43-45. *)
Definition TokenSource_ (m : Manager) (t : Token) : TokenSource :=
  Config_TokenSource (oauth2ConfigOAuth2 m) t.

Definition successPage : string := "<html>
			  <body>
				<h1>Authentication Successful!</h1>
				<p>You can close this window and return to the terminal.</p>
			  </body>
			  </html>".

(** The handler registered on the callback path (lines 120-136), serving
    a request whose code parameter is [code]: what it sends, on [codeChan]
    ([Ok]) or on [errorChan] ([Err]), and its reply.  The reply is written
    while the caller goes on after the select; the trace lists it first. *)
Definition callbackHandler (code : string) : M (result error string) :=
  if String.eqb code "" then
    run emit (EvRespond "Error: No authorization code received");
    ret (Err (errorString "no authorization code received"))
  else
    run emit (EvRespond successPage);
    ret (Ok code).

(** The select of [GetToken] (lines 152-161): the value of [authCode]
    after it. *)
Definition waitForCode (m : Manager) (env : Env) : M string :=
  match first_signal env with
  | Redirect code =>
      do sent <- callbackHandler code;
      match sent with
      | Ok authCode =>
          run emit (EvWrite (GetWriter m) (nl +:+ "✓ Authorization code received" +:+ nl));
          ret authCode
      | Err err =>
          run log LevelError ("Error during authorization: " +:+ Error err);
          ret ""
      end
  | ServeError err =>
      run log LevelError ("Error during authorization: " +:+ Error err);
      ret ""
  | Timeout =>
      run log LevelError "Timeout waiting for authorization code";
      ret ""
  end.

(** oauth2.go, lines 79-192. *)
Definition GetToken (m : Manager) (env : Env) : M (option Token * option error) :=
  let cfg := Config_ m in
  let tokenFile := TokenFile cfg in
  do err <- os_Stat tokenFile;
  match err with
  | Some err =>
      if negb (os_IsNotExist err) then ret (None, Some err)
      else
        let localAddr :=
          if String.eqb (LocalAddr cfg) "" then defaultLocalAddr else LocalAddr cfg in
        let verifier := GenerateVerifier env in
        let opts := [AccessTypeOffline; S256ChallengeOption verifier] in
        run emit (EvAuthCodeURL (oauth2ConfigOAuth2 m) "state-token" opts);
        let authURL := AuthCodeURL env (oauth2ConfigOAuth2 m) "state-token" opts in
        let path :=
          if String.eqb (ServerPath cfg) "" then defaultServerPath else ServerPath cfg in
        run emit (EvHandleFunc path);
        run emit (EvListenAndServe localAddr);
        run emit (EvWrite Stdout ("Opening browser for authentication..." +:+ nl));
        do err <- openURL env authURL;
        run match err with
            | Some err =>
                run log LevelWarn ("Failed to open browser: " +:+ Error err);
                emit (EvWrite (GetWriter m)
                        ("Please open the following URL in your browser:" +:+ nl
                         +:+ authURL +:+ nl))
            | None => ret tt
            end;
        do authCode <- waitForCode m env;
        run emit EvShutdown;
        run match Shutdown env with
            | Some err => log LevelError ("Server shutdown error: " +:+ Error err)
            | None => ret tt
            end;
        run emit (EvWrite (GetWriter m) ("Exchanging authorization code for token..." +:+ nl));
        run emit (EvExchange (oauth2ConfigOAuth2 m) authCode [VerifierOption verifier]);
        match Exchange env (oauth2ConfigOAuth2 m) authCode [VerifierOption verifier] with
        | Err err => ret (None, Some (wrapError "token exchange" err))
        | Ok token =>
            do err <- store env tokenFile token;
            match err with
            | Some err => ret (None, Some (wrapError "store token" err))
            | None =>
                run log LevelDebug ("✓ Token saved to file: " +:+ tokenFile);
                ret (Some token, None)
            end
        end
  | None =>
      run log LevelDebug ("Loading token from file: " +:+ tokenFile);
      do '(token, err) <- load env tokenFile;
      match err with
      | Some err => ret (None, Some (wrapError "load token from file" err))
      | None => ret (token, None)
      end
  end.

(** oauth2.go, lines 47-70. *)
Definition NewOAuth2Client (m : Manager) (env : Env) : M (option Client * option error) :=
  do '(token, err) <- GetToken m env;
  match token, err with
  | _, Some err => ret (None, Some err)
  | None, None =>
      (* a nil token: its source has nothing to hand out or to refresh with *)
      ret (None, Some (wrapError "validate/refresh token"
                         (errorString "oauth2: token expired and refresh token is not set")))
  | Some token, None =>
      let ts := TokenSource_ m token in
      do '(validToken, ts) <- TokenSource_Token env ts;
      match validToken with
      | Err err => ret (None, Some (wrapError "validate/refresh token" err))
      | Ok validToken =>
          run (if negb (String.eqb (AccessToken validToken) (AccessToken token)) then
                 do err <- store env (TokenFile (Config_ m)) validToken;
                 match err with
                 | Some err => log LevelWarn ("Failed to save refreshed token: " +:+ Error err)
                 | None => ret tt
                 end
               else ret tt);
          ret (Some (oauth2_NewClient ts), None)
      end
  end.

(* ------------------------------------------------------------------ *)
(** ** A reference environment

    A small JSON codec for tokens and a provider that can be run, used to
    exercise the model on concrete inputs.  The codec writes the four
    fields in a fixed order, strings quoted with the quote and the
    backslash escaped, the expiry as a quoted decimal. *)

Module Ref.

Definition quote : ascii := Ascii.ascii_of_nat 34.
Definition backslash : ascii := Ascii.ascii_of_nat 92.

Fixpoint escape (s : string) : string :=
  match s with
  | EmptyString => EmptyString
  | String c s' =>
      if Ascii.eqb c quote || Ascii.eqb c backslash
      then String backslash (String c (escape s'))
      else String c (escape s')
  end.

Definition quoted (s : string) : string :=
  String quote (escape s +:+ String quote EmptyString).

(** Reads the body of a quoted string up to its closing quote. *)
Fixpoint read_body (s : string) : option (string * string) :=
  match s with
  | EmptyString => None
  | String c s' =>
      if Ascii.eqb c quote then Some (EmptyString, s')
      else if Ascii.eqb c backslash then
        match s' with
        | String c' s'' =>
            match read_body s'' with
            | Some (body, rest) => Some (String c' body, rest)
            | None => None
            end
        | EmptyString => None
        end
      else
        match read_body s' with
        | Some (body, rest) => Some (String c body, rest)
        | None => None
        end
  end.

Definition read_quoted (s : string) : option (string * string) :=
  match s with
  | String c s' => if Ascii.eqb c quote then read_body s' else None
  | EmptyString => None
  end.

(** Strips the literal [lit] from the front of [s]. *)
Fixpoint expect (lit s : string) : option string :=
  match lit, s with
  | EmptyString, _ => Some s
  | String a lit', String b s' => if Ascii.eqb a b then expect lit' s' else None
  | String _ _, EmptyString => None
  end.

Definition print_Z (z : Z) : string := NilEmpty.string_of_int (Z.to_int z).

Definition parse_Z (s : string) : option Z :=
  option_map Z.of_int (NilEmpty.int_of_string s).

Definition key (name : string) : string := quoted name +:+ ":".

Definition Marshal (t : Token) : result string string :=
  Ok ("{" +:+ key "access_token" +:+ quoted (AccessToken t)
      +:+ "," +:+ key "token_type" +:+ quoted (TokenType t)
      +:+ "," +:+ key "refresh_token" +:+ quoted (RefreshToken t)
      +:+ "," +:+ key "expiry" +:+ quoted (print_Z (Expiry t))
      +:+ "}" +:+ nl).

Definition field (name : string) (s : string) : option (string * string) :=
  match expect (key name) s with
  | Some s' => read_quoted s'
  | None => None
  end.

Definition parse (s : string) : option Token :=
  s ← expect "{" s;
  '(a, s) ← field "access_token" s;
  s ← expect "," s;
  '(ty, s) ← field "token_type" s;
  s ← expect "," s;
  '(r, s) ← field "refresh_token" s;
  s ← expect "," s;
  '(e, s) ← field "expiry" s;
  e ← parse_Z e;
  s ← expect "}" s;
  Some {| AccessToken := a; TokenType := ty; RefreshToken := r; Expiry := e |}.

Definition Decode (data : string) (into : Token) : Token * option string :=
  match data with
  | EmptyString => (into, Some "EOF")
  | _ =>
      match parse data with
      | Some t => (t, None)
      | None => (into, Some "invalid character in JSON input")
      end
  end.

(** A provider that honours the code ["code-1"] and the refresh token
    ["refresh-1"], at the instant [now]. *)
Definition issued : Token :=
  {| AccessToken := "access-1"; TokenType := "Bearer";
     RefreshToken := "refresh-1"; Expiry := 3600 * Second |}.

Definition refreshed : Token :=
  {| AccessToken := "access-2"; TokenType := "Bearer";
     RefreshToken := "refresh-1"; Expiry := 7200 * Second |}.

Definition authCodeURL (c : oauth2_Config) (state : string) (opts : list AuthCodeOption)
  : string :=
  AuthURL (o_Endpoint c) +:+ "?client_id=" +:+ o_ClientID c
  +:+ "&redirect_uri=" +:+ o_RedirectURL c +:+ "&state=" +:+ state.

Definition env (verifier : string) (sig : Signal) (fault : option (nat * Errno))
    (now : Time) (exchange : string -> result error Token) : Env :=
  {| json_Marshal := Marshal;
     json_Decode := Decode;
     write_fault := fault;
     GOOS := "linux";
     exec_Start := fun _ _ => None;
     timeNow := now;
     GenerateVerifier := verifier;
     AuthCodeURL := authCodeURL;
     Exchange := fun _ code _ => exchange code;
     retrieveToken := fun _ rt =>
       if String.eqb rt "refresh-1" then Ok refreshed
       else Err (errorString "oauth2: cannot fetch token: 400 Bad Request");
     first_signal := sig;
     Shutdown := None |}.

(** The token endpoint of a conforming provider: only ["code-1"] is a
    code it has issued. *)
Definition strict (code : string) : result error Token :=
  if String.eqb code "code-1" then Ok issued
  else Err (errorString "oauth2: cannot fetch token: 400 Bad Request").

(** A token endpoint that answers every grant, whatever the code. *)
Definition lenient (code : string) : result error Token := Ok issued.

Definition endpoint : Endpoint :=
  {| AuthURL := "https://provider.example/auth"; DeviceAuthURL := "";
     TokenURL := "https://provider.example/token"; AuthStyle := 0 |}.

Definition config (serverPath : string) : Config :=
  {| ClientID := "client"; ClientSecret := "secret"; Scopes := ["email"; "profile"];
     Endpoint_ := endpoint; ServerPath := serverPath; LocalAddr := "";
     TokenFile := "token.json" |}.

Definition manager (serverPath : string) : Manager :=
  {| Config_ := config serverPath; Writer_ := None |}.

(** No token file yet. *)
Definition fresh : World := {| fs := ∅; trace := [] |}.

(** A token file holding [data], with the given permissions. *)
Definition cached (data : string) (rd wr : bool) : World :=
  {| fs := {[ "token.json" := File data rd wr ]}; trace := [] |}.

Definition encoded (t : Token) : string :=
  match Marshal t with Ok data => data | Err _ => "" end.

(** A stored credential that has expired and whose access token the
    provider issues again on refresh. *)
Definition stale : Token :=
  {| AccessToken := "access-2"; TokenType := "Bearer";
     RefreshToken := "refresh-1"; Expiry := 3600 * Second |}.

(** A stored credential that has expired and lacks a refresh token. *)
Definition spent : Token :=
  {| AccessToken := "access-0"; TokenType := "Bearer";
     RefreshToken := ""; Expiry := 60 * Second |}.

End Ref.

(* ------------------------------------------------------------------ *)
(** ** Vocabulary of the statements *)

(** [os.Stat] reports that the token file does not exist. *)
Definition tokenFileMissing (path : string) (w : World) : bool :=
  match fs w !! path with
  | None | Some (Absent _) | Some (Broken ENOENT) => true
  | _ => false
  end.

(** The authorization code the select leaves in [authCode]. *)
Definition receivedCode (env : Env) : string :=
  match first_signal env with
  | Redirect code => code
  | ServeError _ | Timeout => ""
  end.

(** The wait ends by the timeout or by an error sent on [errorChan], not
    by a code. *)
Definition endsWithoutCode (env : Env) : Prop :=
  match first_signal env with
  | Redirect code => code = ""
  | ServeError _ | Timeout => True
  end.

(** The callback receiver is set up. *)
Definition is_receiver (ev : Event) : bool :=
  match ev with
  | EvHandleFunc _ | EvListenAndServe _ => true
  | _ => false
  end.

(** The browser launcher is invoked. *)
Definition is_launcher (ev : Event) : bool :=
  match ev with
  | EvStart _ _ => true
  | _ => false
  end.

(** A request goes to the provider's token endpoint. *)
Definition is_grant (ev : Event) : bool :=
  match ev with
  | EvExchange _ _ _ | EvRefresh _ _ => true
  | _ => false
  end.

(** Messages only: log records, writer output, the reply to the browser,
    the shutdown of the server. *)
Definition is_quiet (ev : Event) : bool :=
  match ev with
  | EvLog _ _ | EvWrite _ _ | EvRespond _ | EvShutdown => true
  | _ => false
  end.

(** The world after the calls [evs]. *)
Definition add (evs : list Event) (w : World) : World :=
  {| fs := fs w; trace := trace w ++ evs |}.

(** The redirect URIs handed to [AuthCodeURL], in order. *)
Definition redirectURIs (evs : list Event) : list string :=
  flat_map (fun ev => match ev with EvAuthCodeURL c _ _ => [o_RedirectURL c] | _ => [] end) evs.

(** The patterns on which a handler was registered, in order. *)
Definition handlerPaths (evs : list Event) : list string :=
  flat_map (fun ev => match ev with EvHandleFunc p => [p] | _ => [] end) evs.

(** The state values handed to [AuthCodeURL], in order. *)
Definition states (evs : list Event) : list string :=
  flat_map (fun ev => match ev with EvAuthCodeURL _ state _ => [state] | _ => [] end) evs.

(** The authorization-code grants sent, in order. *)
Definition exchanges (evs : list Event) : list Event :=
  List.filter (fun ev => match ev with EvExchange _ _ _ => true | _ => false end) evs.

(** The refresh-token grants sent, in order. *)
Definition refreshes (evs : list Event) : list Event :=
  List.filter (fun ev => match ev with EvRefresh _ _ => true | _ => false end) evs.

Definition Writer_eqb (a b : Writer) : bool :=
  match a, b with
  | Stdout, Stdout => true
  | CustomWriter i, CustomWriter j => Nat.eqb i j
  | _, _ => false
  end.

(** A message: a log record, the reply to the browser, or text on the
    writer [wr]. *)
Definition is_message (wr : Writer) (ev : Event) : bool :=
  match ev with
  | EvLog _ _ | EvRespond _ => true
  | EvWrite wr' _ => Writer_eqb wr' wr
  | _ => false
  end.

(** What a run does besides talking: its calls to oauth2, net/http and
    os/exec, in order. *)
Definition steps (evs : list Event) : list Event :=
  List.filter (fun ev => match ev with
                         | EvLog _ _ | EvWrite _ _ | EvRespond _ => false
                         | _ => true
                         end) evs.

(** The address the callback server of [GetToken] listens on. *)
Definition listenAddr (c : Config) : string :=
  if String.eqb (LocalAddr c) "" then defaultLocalAddr else LocalAddr c.

(** The pattern the callback handler of [GetToken] is registered on. *)
Definition callbackPath (c : Config) : string :=
  if String.eqb (ServerPath c) "" then defaultServerPath else ServerPath c.

(** [env] on a host where starting a command fails with [lerr]. *)
Definition headless (lerr : error) (env : Env) : Env :=
  {| json_Marshal := json_Marshal env;
     json_Decode := json_Decode env;
     write_fault := write_fault env;
     GOOS := GOOS env;
     exec_Start := fun _ _ => Some lerr;
     timeNow := timeNow env;
     GenerateVerifier := GenerateVerifier env;
     AuthCodeURL := AuthCodeURL env;
     Exchange := Exchange env;
     retrieveToken := retrieveToken env;
     first_signal := first_signal env;
     Shutdown := Shutdown env |}.

(** [env] on the operating system [os], with a server whose shutdown
    answers [serr]. *)
Definition hosted (os : string) (serr : option error) (env : Env) : Env :=
  {| json_Marshal := json_Marshal env;
     json_Decode := json_Decode env;
     write_fault := write_fault env;
     GOOS := os;
     exec_Start := exec_Start env;
     timeNow := timeNow env;
     GenerateVerifier := GenerateVerifier env;
     AuthCodeURL := AuthCodeURL env;
     Exchange := Exchange env;
     retrieveToken := retrieveToken env;
     first_signal := first_signal env;
     Shutdown := serr |}.

(** A stored credential that has expired and whose refresh token the
    reference provider no longer accepts. *)
Definition revoked : Token :=
  {| AccessToken := "access-1"; TokenType := "Bearer";
     RefreshToken := "refresh-0"; Expiry := 3600 * Second |}.

(** A stored credential without expiry: its Expiry is the zero Time, which
    lies before every instant and which the token source takes to mean
    that the token never expires. *)
Definition eternal : Token :=
  {| AccessToken := "access-1"; TokenType := "Bearer";
     RefreshToken := "refresh-1"; Expiry := 0 |}.

(** [env] with a token endpoint that answers every refresh-token grant,
    whatever the refresh token, by issuing [tk]. *)
Definition generous (tk : Token) (env : Env) : Env :=
  {| json_Marshal := json_Marshal env;
     json_Decode := json_Decode env;
     write_fault := write_fault env;
     GOOS := GOOS env;
     exec_Start := exec_Start env;
     timeNow := timeNow env;
     GenerateVerifier := GenerateVerifier env;
     AuthCodeURL := AuthCodeURL env;
     Exchange := Exchange env;
     retrieveToken := fun _ _ => Ok tk;
     first_signal := first_signal env;
     Shutdown := Shutdown env |}.

(** No handler has been registered on the default mux by an earlier flow
    of this process: [http.HandleFunc] panics on a pattern that is already
    registered. *)
Definition freshMux (w : World) : bool :=
  match handlerPaths (trace w) with
  | [] => true
  | _ :: _ => false
  end.

Fixpoint plainChars (s : string) : bool :=
  match s with
  | EmptyString => true
  | String c s' =>
      negb (Ascii.eqb c " " || Ascii.eqb c (Ascii.ascii_of_nat 9)
            || Ascii.eqb c "{" || Ascii.eqb c "}")
      && plainChars s'
  end.

(** A pattern that [http.HandleFunc] accepts in every Go release: a path
    that starts with a slash and holds no space, tab or brace (no method,
    no host, no wildcard). *)
Definition plainPattern (p : string) : bool :=
  match p with
  | String c s' => Ascii.eqb c "/" && plainChars s'
  | EmptyString => false
  end.

(** The error of a context that is done: what [Server.Shutdown] returns
    when its context expires or is cancelled before the server is idle;
    every later call on that context fails with it. *)
Definition is_context_error (e : error) : bool :=
  match e with
  | errorString msg =>
      String.eqb msg "context deadline exceeded" || String.eqb msg "context canceled"
  | _ => false
  end.

(* ------------------------------------------------------------------ *)
(** ** The token store *)

Ltac go_unfold :=
  unfold store, load, json_Encode, json_Decoder_Decode, File_Write, File_contents,
    os_OpenFile, os_Open, os_Stat, log, emit, get_node, set_node, bind, ret in *.

(** [store] never touches the trace. *)
Lemma store_trace env fileName token w :
  trace (snd (store env fileName token w)) = trace w.
Proof.
  go_unfold.
  destruct (fs w !! fileName) as [[d rd wr|e|e]|] eqn:Hn; simpl; try reflexivity.
  - destruct rd, wr; simpl; try reflexivity;
      destruct (json_Marshal env token); simpl; try reflexivity;
      rewrite lookup_insert_eq; destruct (write_fault env) as [[k e]|]; reflexivity.
  - destruct (json_Marshal env token); simpl; try reflexivity;
      rewrite lookup_insert_eq; destruct (write_fault env) as [[k e]|]; reflexivity.
Qed.

(** What [store] answers and what it leaves on disk depend on the file
    system only. *)
Lemma store_frame env fileName token f tr tr' :
  store env fileName token {| fs := f; trace := tr' |} =
  (fst (store env fileName token {| fs := f; trace := tr |}),
   {| fs := fs (snd (store env fileName token {| fs := f; trace := tr |}));
      trace := tr' |}).
Proof.
  go_unfold; simpl.
  destruct (f !! fileName) as [[d rd wr|e|e]|] eqn:Hn; simpl; try reflexivity.
  - destruct rd, wr; simpl; try reflexivity;
      destruct (json_Marshal env token); simpl; try reflexivity;
      rewrite !lookup_insert_eq; destruct (write_fault env) as [[k e]|]; reflexivity.
  - destruct (json_Marshal env token); simpl; try reflexivity;
      rewrite !lookup_insert_eq; destruct (write_fault env) as [[k e]|]; reflexivity.
Qed.

(** A file that cannot be opened for reading and writing is left as it
    is. *)
Lemma store_open_fails env fileName token w data rd wr :
  fs w !! fileName = Some (File data rd wr) ->
  rd && wr = false ->
  store env fileName token w = (Some (PathError "open" fileName EACCES), w).
Proof.
  intros Hn Hperm. go_unfold. rewrite Hn, Hperm. reflexivity.
Qed.

(** A successful [store] leaves the marshalled token, readable, at the
    path. *)
Lemma store_succeeds env fileName token w w' :
  store env fileName token w = (None, w') ->
  exists data wr,
    json_Marshal env token = Ok data /\
    fs w' !! fileName = Some (File data true wr).
Proof.
  go_unfold.
  destruct (fs w !! fileName) as [[d rd wr|e|e]|] eqn:Hn; simpl; try discriminate.
  - destruct rd, wr; simpl; try discriminate.
    destruct (json_Marshal env token) as [data|msg]; simpl; try discriminate.
    rewrite lookup_insert_eq. destruct (write_fault env) as [[k e]|]; try discriminate.
    intros [= <-]. exists data, true. simpl. rewrite lookup_insert_eq. auto.
  - destruct (json_Marshal env token) as [data|msg]; simpl; try discriminate.
    rewrite lookup_insert_eq. destruct (write_fault env) as [[k e]|]; try discriminate.
    intros [= <-]. exists data, true. simpl. rewrite lookup_insert_eq. auto.
Qed.

(** [load] of a readable file: the decoder's token and error, the world
    untouched. *)
Lemma load_readable env fileName w data wr :
  fs w !! fileName = Some (File data true wr) ->
  load env fileName w =
  ((Some (fst (json_Decode env data zeroToken)),
    option_map jsonError (snd (json_Decode env data zeroToken))), w).
Proof.
  intros Hn. go_unfold. rewrite Hn. simpl. rewrite Hn.
  destruct (json_Decode env data zeroToken). reflexivity.
Qed.

(** C4: for every credential that encoding/json marshals and reads back,
    [store] on the token file followed by [load] on the same file returns
    that credential, equal in all its fields. *)
Theorem store_load_roundtrip env fileName (C : Token) data w w' :
  json_Marshal env C = Ok data ->
  json_Decode env data zeroToken = (C, None) ->
  store env fileName C w = (None, w') ->
  load env fileName w' = ((Some C, None), w').
Proof.
  intros Hm Hd Hs.
  destruct (store_succeeds _ _ _ _ _ Hs) as (data' & wr & Hm' & Hn).
  rewrite Hm in Hm'. injection Hm' as <-.
  rewrite (load_readable _ _ _ _ _ Hn), Hd. reflexivity.
Qed.

(* ------------------------------------------------------------------ *)
(** ** GetToken when the token file exists *)

(** With a readable token file [GetToken] logs, decodes the file and
    stops there. *)
Lemma GetToken_existing m env w data wr :
  fs w !! TokenFile (Config_ m) = Some (File data true wr) ->
  GetToken m env w =
  (match snd (json_Decode env data zeroToken) with
   | Some msg => (None, Some (wrapError "load token from file" (jsonError msg)))
   | None => (Some (fst (json_Decode env data zeroToken)), None)
   end,
   {| fs := fs w;
      trace := trace w ++
        [EvLog LevelDebug ("Loading token from file: " +:+ TokenFile (Config_ m))] |}).
Proof.
  intros Hn. unfold GetToken.
  unfold bind at 1. unfold os_Stat, bind, get_node, ret. rewrite Hn.
  unfold log, emit.
  rewrite (load_readable env _ {| fs := fs w; trace := _ |} data wr Hn).
  destruct (json_Decode env data zeroToken) as [t [msg|]]; reflexivity.
Qed.

(** C10: whenever the token file exists and parses, [GetToken] returns the
    stored credential as it is, whatever its expiry and refresh token;
    the run leaves the file system alone and makes no request to the
    provider, nor does it start the receiver or the launcher. *)
Theorem GetToken_decides_on_existence m env w data wr (t : Token) :
  fs w !! TokenFile (Config_ m) = Some (File data true wr) ->
  json_Decode env data zeroToken = (t, None) ->
  exists evs,
    GetToken m env w = ((Some t, None), {| fs := fs w; trace := trace w ++ evs |}) /\
    Forall (fun ev => is_grant ev = false /\ is_receiver ev = false
                      /\ is_launcher ev = false) evs.
Proof.
  intros Hn Hd. rewrite (GetToken_existing m env w data wr Hn), Hd. simpl.
  eexists. split; [reflexivity|].
  repeat constructor.
Qed.

(** C5: whenever a valid, non-expired credential is in the token store,
    [GetToken] returns it from the file and neither the callback receiver
    nor the browser launcher is started. *)
Theorem cache_hit_skips_flow m env w data wr (t : Token) :
  fs w !! TokenFile (Config_ m) = Some (File data true wr) ->
  json_Decode env data zeroToken = (t, None) ->
  Token_Valid (timeNow env) t = true ->
  exists evs,
    GetToken m env w = ((Some t, None), {| fs := fs w; trace := trace w ++ evs |}) /\
    Forall (fun ev => is_receiver ev = false /\ is_launcher ev = false) evs.
Proof.
  intros Hn Hd _. rewrite (GetToken_existing m env w data wr Hn), Hd. simpl.
  eexists. split; [reflexivity|]. repeat constructor.
Qed.




(* ------------------------------------------------------------------ *)
(** ** GetToken when the token file is missing *)

Lemma add_add evs evs' w : add evs' (add evs w) = add (evs ++ evs') w.
Proof. unfold add. simpl. rewrite app_assoc. reflexivity. Qed.

Lemma emit_add ev w : emit ev w = (tt, add [ev] w).
Proof. reflexivity. Qed.

(** The launcher starts one command and reports what starting it gave. *)
Lemma openURL_runs env url :
  exists name args, forall w,
    openURL env url w = (exec_Start env name args, add [EvStart name args] w).
Proof.
  unfold openURL.
  destruct (String.eqb (GOOS env) "windows");
    [|destruct (String.eqb (GOOS env) "darwin")];
    do 2 eexists; intros w; reflexivity.
Qed.

(** The wait only produces messages, and leaves in [authCode] the code of
    the redirect, or nothing. *)
Lemma waitForCode_quiet m env :
  exists quiet,
    Forall (fun ev => is_quiet ev = true) quiet /\
    forall w, waitForCode m env w = (receivedCode env, add quiet w).
Proof.
  unfold waitForCode, receivedCode, callbackHandler.
  destruct (first_signal env) as [code|err|].
  - destruct (String.eqb code "") eqn:Hc.
    + apply String.eqb_eq in Hc as ->.
      eexists. split; [|intros w; unfold bind, log, emit, ret, add; simpl;
                         rewrite <- !app_assoc; reflexivity].
      simpl. repeat constructor.
    + eexists. split; [|intros w; unfold bind, log, emit, ret, add; simpl;
                         rewrite <- !app_assoc; reflexivity].
      simpl. repeat constructor.
  - eexists. split; [|intros w; unfold bind, log, emit, ret, add; simpl; reflexivity].
    repeat constructor.
  - eexists. split; [|intros w; unfold bind, log, emit, ret, add; simpl; reflexivity].
    repeat constructor.
Qed.

Lemma Stat_missing path w :
  tokenFileMissing path w = true ->
  os_Stat path w = (Some (PathError "stat" path ENOENT), w).
Proof.
  unfold tokenFileMissing, os_Stat, bind, get_node, ret.
  destruct (fs w !! path) as [[d rd wr|e|e]|]; try discriminate; try reflexivity.
  destruct e; try discriminate. reflexivity.
Qed.

(** The interactive flow, step by step: the authorization URL is asked
    for, the handler registered, the server and the launcher started;
    then come messages only; then one exchange, with whatever code the
    wait left, and, when it yields a token, [store]. *)
Lemma GetToken_missing m env w :
  tokenFileMissing (TokenFile (Config_ m)) w = true ->
  let cfg := Config_ m in
  let conf := oauth2ConfigOAuth2 m in
  let verifier := GenerateVerifier env in
  exists name args quiet,
    Forall (fun ev => is_quiet ev = true) quiet /\
    let evs := (
      [EvAuthCodeURL conf "state-token" [AccessTypeOffline; S256ChallengeOption verifier];
       EvHandleFunc
         (if String.eqb (ServerPath cfg) "" then defaultServerPath else ServerPath cfg);
       EvListenAndServe
         (if String.eqb (LocalAddr cfg) "" then defaultLocalAddr else LocalAddr cfg);
       EvWrite Stdout ("Opening browser for authentication..." +:+ nl);
       EvStart name args]
      ++ quiet ++ [EvExchange conf (receivedCode env) [VerifierOption verifier]])%list in
    GetToken m env w =
      match Exchange env conf (receivedCode env) [VerifierOption verifier] with
      | Err err => ((None, Some (wrapError "token exchange" err)), add evs w)
      | Ok token =>
          let stored := store env (TokenFile cfg) token w in
          match fst stored with
          | Some err =>
              ((None, Some (wrapError "store token" err)),
               {| fs := fs (snd stored); trace := trace w ++ evs |})
          | None =>
              ((Some token, None),
               {| fs := fs (snd stored);
                  trace := (trace w ++ evs ++
                    [EvLog LevelDebug ("✓ Token saved to file: " +:+ TokenFile cfg)])%list |})
          end
      end.
Proof.
  intros Hmiss cfg conf verifier.
  destruct (openURL_runs env
              (AuthCodeURL env conf "state-token"
                 [AccessTypeOffline; S256ChallengeOption verifier]))
    as (name & args & Hopen).
  destruct (waitForCode_quiet m env) as (quiet & Hquiet & Hwait).
  exists name, args.
  subst cfg conf verifier.
  cbv beta zeta delta [GetToken bind log].
  rewrite (Stat_missing _ _ Hmiss). cbv beta iota delta [os_IsNotExist negb].
  rewrite !emit_add. cbv beta iota. rewrite Hopen. cbv beta iota.
  destruct w as [f tr].
  eexists (match exec_Start env name args with Some _ => [_; _] | None => [] end
           ++ quiet ++ [_]
           ++ match Shutdown env with Some _ => [_] | None => [] end ++ [_])%list.
  apply and_comm. split.
  - destruct (exec_Start env name args) as [lerr|];
      destruct (Shutdown env) as [serr|];
      rewrite ?emit_add; cbv beta iota; unfold ret;
      rewrite ?Hwait; rewrite ?emit_add; cbv beta iota;
      rewrite ?emit_add; cbv beta iota;
      rewrite !add_add; unfold add; simpl fs; simpl trace;
      (destruct (Exchange env _ _ _) as [token|err];
       [ rewrite (store_frame env _ token f tr);
         destruct (fst (store env _ token {| fs := f; trace := tr |}));
         cbv beta iota; rewrite ?emit_add; unfold add; simpl fs; simpl trace
       | ]);
      repeat (first [rewrite <- app_assoc | progress simpl]); reflexivity.
  - destruct (exec_Start env name args) as [lerr|];
      destruct (Shutdown env) as [serr|];
      repeat (apply Forall_app; split); try exact Hquiet; repeat constructor.
Qed.

Lemma states_app evs evs' : states (evs ++ evs') = (states evs ++ states evs')%list.
Proof. unfold states. apply flat_map_app. Qed.

Lemma exchanges_app evs evs' :
  exchanges (evs ++ evs') = (exchanges evs ++ exchanges evs')%list.
Proof. unfold exchanges. apply List.filter_app. Qed.

Lemma quiet_states quiet :
  Forall (fun ev => is_quiet ev = true) quiet -> states quiet = [].
Proof.
  induction 1 as [|ev l Hev _ IH]; [reflexivity|].
  unfold states in *. simpl. rewrite IH. destruct ev; try discriminate; reflexivity.
Qed.

Lemma quiet_exchanges quiet :
  Forall (fun ev => is_quiet ev = true) quiet -> exchanges quiet = [].
Proof.
  induction 1 as [|ev l Hev _ IH]; [reflexivity|].
  unfold exchanges in *. simpl. rewrite IH. destruct ev; try discriminate; reflexivity.
Qed.

Lemma quiet_In quiet ev :
  Forall (fun ev => is_quiet ev = true) quiet -> In ev quiet -> is_quiet ev = true.
Proof. intros Hq Hin. rewrite Forall_forall in Hq. apply Hq, list_elem_of_In, Hin. Qed.

(** C8: in every interactive flow whose code-for-token exchange fails,
    [GetToken] returns that error after the one exchange it made, and the
    file system is as it was: nothing is persisted. *)
Theorem exchange_failure_is_terminal m env w err :
  tokenFileMissing (TokenFile (Config_ m)) w = true ->
  Exchange env (oauth2ConfigOAuth2 m) (receivedCode env)
    [VerifierOption (GenerateVerifier env)] = Err err ->
  exists evs,
    GetToken m env w =
      ((None, Some (wrapError "token exchange" err)),
       {| fs := fs w; trace := trace w ++ evs |}) /\
    length (exchanges evs) = 1%nat.
Proof.
  intros Hmiss Hx.
  destruct (GetToken_missing m env w Hmiss) as (name & args & quiet & Hq & Heq).
  cbv zeta in Heq. rewrite Hx in Heq. rewrite Heq.
  eexists. split; [reflexivity|].
  rewrite !exchanges_app, (quiet_exchanges _ Hq). reflexivity.
Qed.

(** C9: in every interactive flow whose exchange succeeds, a failure to
    persist the new credential makes [GetToken] return an error, not the
    token. *)
Theorem persist_failure_is_fatal m env w token err :
  tokenFileMissing (TokenFile (Config_ m)) w = true ->
  Exchange env (oauth2ConfigOAuth2 m) (receivedCode env)
    [VerifierOption (GenerateVerifier env)] = Ok token ->
  fst (store env (TokenFile (Config_ m)) token w) = Some err ->
  exists w', GetToken m env w = ((None, Some (wrapError "store token" err)), w').
Proof.
  intros Hmiss Hx Hs.
  destruct (GetToken_missing m env w Hmiss) as (name & args & quiet & Hq & Heq).
  cbv zeta in Heq. rewrite Hx, Hs in Heq. rewrite Heq.
  eexists. reflexivity.
Qed.

(** The events of an interactive flow, whatever its outcome. *)
Lemma GetToken_missing_trace m env w :
  tokenFileMissing (TokenFile (Config_ m)) w = true ->
  exists name args quiet tail,
    Forall (fun ev => is_quiet ev = true) quiet /\
    Forall (fun ev => is_quiet ev = true) tail /\
    trace (snd (GetToken m env w)) =
    (trace w ++
     [EvAuthCodeURL (oauth2ConfigOAuth2 m) "state-token"
        [AccessTypeOffline; S256ChallengeOption (GenerateVerifier env)];
      EvHandleFunc
        (if String.eqb (ServerPath (Config_ m)) "" then defaultServerPath
         else ServerPath (Config_ m));
      EvListenAndServe
        (if String.eqb (LocalAddr (Config_ m)) "" then defaultLocalAddr
         else LocalAddr (Config_ m));
      EvWrite Stdout ("Opening browser for authentication..." +:+ nl);
      EvStart name args]
     ++ quiet
     ++ [EvExchange (oauth2ConfigOAuth2 m) (receivedCode env)
           [VerifierOption (GenerateVerifier env)]]
     ++ tail)%list.
Proof.
  intros Hmiss.
  destruct (GetToken_missing m env w Hmiss) as (name & args & quiet & Hq & Heq).
  cbv zeta in Heq. rewrite Heq. exists name, args, quiet.
  destruct (Exchange env _ _ _) as [token|err].
  - destruct (fst (store env _ token w)).
    + exists []. split; [exact Hq|]. split; [constructor|].
      repeat (first [rewrite <- app_assoc | rewrite app_nil_r | progress simpl]);
      reflexivity.
    + eexists [_]. split; [exact Hq|]. apply and_comm. split.
      * repeat (first [rewrite <- app_assoc | rewrite app_nil_r | progress simpl]);
        reflexivity.
      * repeat constructor.
  - exists []. split; [exact Hq|]. split; [constructor|].
    repeat (first [rewrite <- app_assoc | rewrite app_nil_r | progress simpl]);
    reflexivity.
Qed.

(** C3 (as the code has it): every interactive flow hands the same fixed
    state value, "state-token", to the authorization URL; what is fresh
    in a flow is its PKCE verifier, whose S256 challenge goes into the URL
    and which the exchange presents. *)
Theorem state_is_a_fixed_string m env w :
  tokenFileMissing (TokenFile (Config_ m)) w = true ->
  exists evs,
    trace (snd (GetToken m env w)) = (trace w ++ evs)%list /\
    states evs = ["state-token"] /\
    (forall c state opts, In (EvAuthCodeURL c state opts) evs ->
       opts = [AccessTypeOffline; S256ChallengeOption (GenerateVerifier env)]) /\
    (forall c code opts, In (EvExchange c code opts) evs ->
       opts = [VerifierOption (GenerateVerifier env)]).
Proof.
  intros Hmiss.
  destruct (GetToken_missing_trace m env w Hmiss)
    as (name & args & quiet & tail & Hq & Ht & Heq).
  rewrite Heq. eexists. split; [reflexivity|].
  split; [|split].
  - rewrite !states_app, (quiet_states _ Hq), (quiet_states _ Ht). reflexivity.
  - intros c state opts Hin. simpl in Hin.
    destruct Hin as [Heq'|[Heq'|[Heq'|[Heq'|[Heq'|Hin]]]]]; try discriminate.
    + injection Heq' as _ _ <-. reflexivity.
    + apply in_app_or in Hin as [Hin|Hin]; [apply (quiet_In _ _ Hq) in Hin; discriminate|].
      destruct Hin as [Heq'|Hin]; [discriminate|].
      apply (quiet_In _ _ Ht) in Hin; discriminate.
  - intros c code opts Hin. simpl in Hin.
    destruct Hin as [Heq'|[Heq'|[Heq'|[Heq'|[Heq'|Hin]]]]]; try discriminate.
    apply in_app_or in Hin as [Hin|Hin]; [apply (quiet_In _ _ Hq) in Hin; discriminate|].
    destruct Hin as [Heq'|Hin].
    + injection Heq' as _ _ <-. reflexivity.
    + apply (quiet_In _ _ Ht) in Hin; discriminate.
Qed.

(** C3, refuted as stated: two interactive flows, with different PKCE
    verifiers, hand the same state value to their authorization URLs. *)
Lemma state_nonce_repeats :
  GenerateVerifier (Ref.env "verifier-1" (Redirect "code-1") None 0 Ref.strict)
    <> GenerateVerifier (Ref.env "verifier-2" (Redirect "code-1") None 0 Ref.strict) /\
  states (trace (snd (GetToken (Ref.manager "")
                        (Ref.env "verifier-1" (Redirect "code-1") None 0 Ref.strict)
                        Ref.fresh)))
  = states (trace (snd (GetToken (Ref.manager "")
                          (Ref.env "verifier-2" (Redirect "code-1") None 0 Ref.strict)
                          Ref.fresh))).
Proof. split; [discriminate|]. vm_compute. reflexivity. Qed.

(** C1, at the failing input: the wait ends by the timeout (or by a
    redirect without code) and the token endpoint answers the grant made
    with the empty code; [GetToken] has logged the error, yet it makes the
    exchange, stores the token and returns it with no error. *)
Theorem timeout_falls_through_to_exchange :
  let after (sig : Signal) :=
    GetToken (Ref.manager "") (Ref.env "verifier-1" sig None 0 Ref.lenient) Ref.fresh in
  (fst (after Timeout) = (Some Ref.issued, None) /\
   fs (snd (after Timeout)) !! "token.json"
     = Some (File (Ref.encoded Ref.issued) true true) /\
   In (EvLog LevelError "Timeout waiting for authorization code")
     (trace (snd (after Timeout))) /\
   exchanges (trace (snd (after Timeout)))
     = [EvExchange (oauth2Config (Ref.config "")) "" [VerifierOption "verifier-1"]]) /\
  (fst (after (Redirect "")) = (Some Ref.issued, None) /\
   fs (snd (after (Redirect ""))) !! "token.json"
     = Some (File (Ref.encoded Ref.issued) true true) /\
   In (EvLog LevelError "Error during authorization: no authorization code received")
     (trace (snd (after (Redirect ""))))).
Proof.
  cbv zeta. repeat split; try (vm_compute; reflexivity).
  - vm_compute. tauto.
  - vm_compute. tauto.
Qed.

(** C2, at the failing input: with ServerPath set to "/cb" the handler is
    registered on "/cb" while the redirect URI handed to the
    authorization URL ends in "/callback". *)
Theorem redirect_path_is_hard_coded :
  let out := GetToken (Ref.manager "/cb")
               (Ref.env "verifier-1" (Redirect "code-1") None 0 Ref.strict) Ref.fresh in
  buildRedirectURL (Ref.config "/cb") = "http://localhost:15440/callback" /\
  redirectURIs (trace (snd out)) = ["http://localhost:15440/callback"] /\
  handlerPaths (trace (snd out)) = ["/cb"].
Proof. cbv zeta. repeat split; vm_compute; reflexivity. Qed.

(** [buildRedirectURL] does not read ServerPath. *)
Lemma buildRedirectURL_ignores_ServerPath c path :
  buildRedirectURL
    {| ClientID := ClientID c; ClientSecret := ClientSecret c; Scopes := Scopes c;
       Endpoint_ := Endpoint_ c; ServerPath := path; LocalAddr := LocalAddr c;
       TokenFile := TokenFile c |}
  = buildRedirectURL c.
Proof. reflexivity. Qed.

(* ------------------------------------------------------------------ *)
(** ** NewOAuth2Client *)

(** A token whose expiry has passed is not valid. *)
Lemma past_expiry_invalid now (t : Token) :
  Time_IsZero (Expiry t) = false -> Expiry t < now -> Token_Valid now t = false.
Proof.
  intros Hz Hpast. unfold Token_Valid, Token_expired. rewrite Hz.
  replace (Expiry t - expiryDelta <? now) with true.
  - apply andb_false_r.
  - symmetry. apply Z.ltb_lt. unfold expiryDelta, Second. lia.
Qed.

(** C6 (as the code has it): for every stored credential whose expiry is
    set (not the zero Time, which never expires) and in the past, and
    which carries a refresh token (not the empty string) that the provider
    accepts, issuing an access token that differs from the stored one,
    [NewOAuth2Client] returns a client whose source holds the new token
    and attempts to persist that token; when the attempt succeeds the
    token file holds the new credential; when it fails the client is
    returned all the same and a warning is logged; the token file keeps
    the old value when it cannot be opened for writing. *)
Theorem refresh_is_persisted m env w data wr (t t' : Token) :
  fs w !! TokenFile (Config_ m) = Some (File data true wr) ->
  json_Decode env data zeroToken = (t, None) ->
  Time_IsZero (Expiry t) = false ->
  Expiry t < timeNow env ->
  RefreshToken t <> "" ->
  retrieveToken env (oauth2ConfigOAuth2 m) (RefreshToken t) = Ok t' ->
  AccessToken t' <> AccessToken t ->
  let stored := store env (TokenFile (Config_ m)) t' w in
  exists evs,
    NewOAuth2Client m env w =
      ((Some {| Source := {| ts_conf := oauth2ConfigOAuth2 m; ts_t := t';
                             ts_refreshToken := RefreshToken t' |} |}, None),
       {| fs := fs (snd stored); trace := trace w ++ evs |}) /\
    (fst stored = None ->
       exists data' wr', json_Marshal env t' = Ok data' /\
         fs (snd stored) !! TokenFile (Config_ m) = Some (File data' true wr')) /\
    (forall err, fst stored = Some err ->
       In (EvLog LevelWarn ("Failed to save refreshed token: " +:+ Error err)) evs) /\
    (wr = false -> fs (snd stored) = fs w).
Proof.
  intros Hn Hd Hz Hpast Hrt Hr Hne stored.
  assert (Hinv := past_expiry_invalid _ _ Hz Hpast).
  apply String.eqb_neq in Hrt. apply String.eqb_neq in Hne.
  unfold NewOAuth2Client.
  unfold bind at 1. rewrite (GetToken_existing m env w data wr Hn), Hd.
  cbn [fst snd]. cbv beta iota.
  unfold bind at 1. unfold TokenSource_Token, TokenSource_, Config_TokenSource.
  cbn [ts_t ts_refreshToken ts_conf].
  rewrite Hinv, Hrt. unfold bind at 1. rewrite emit_add. rewrite Hr.
  unfold ret at 1. cbv beta iota. rewrite Hne. simpl negb. cbv iota.
  unfold bind at 1. unfold bind at 1.
  destruct w as [f tr]. unfold add. simpl fs. simpl trace.
  rewrite (store_frame env _ t' f tr). fold stored.
  destruct (fst stored) as [err|] eqn:Hs.
  - eexists. split; [|split; [discriminate|split]].
    + unfold log. rewrite emit_add. unfold ret, add. simpl fs. simpl trace.
      rewrite <- !app_assoc. reflexivity.
    + intros err' [= <-]. apply in_or_app. right. simpl. auto.
    + intros ->. subst stored.
      rewrite (store_open_fails env _ t' {| fs := f; trace := tr |} data true false Hn eq_refl).
      reflexivity.
  - eexists. split; [|split; [|split; [discriminate|]]].
    + unfold ret. rewrite <- !app_assoc. reflexivity.
    + intros _. subst stored.
      destruct (store env (TokenFile (Config_ m)) t' {| fs := f; trace := tr |})
        as [r ws] eqn:Hst.
      simpl in Hs. subst r. simpl snd.
      apply (store_succeeds _ _ _ _ _ Hst).
    + intros ->. subst stored.
      rewrite (store_open_fails env _ t' {| fs := f; trace := tr |} data true false Hn eq_refl)
        in Hs.
      discriminate.
Qed.

(** C6, refuted as stated: (1) the refreshed token cannot be written, the
    client is returned, and the token file, emptied when it was opened, no
    longer holds the old credential; (2) the provider accepts the refresh
    token and issues the same access token with a later expiry, and the
    new credential is not persisted; (3) the stored expiry is the zero
    Time, which is in the past, and the provider would accept the refresh
    token, yet no refresh is asked for: the client holds the stored token
    and the file is not written; (4) the stored credential has expired,
    its refresh token is the empty string and the provider would answer
    any refresh, yet none is asked for and the caller gets an error. *)
Lemma refresh_persist_counterexample :
  (let w := Ref.cached (Ref.encoded Ref.issued) true true in
   let out := NewOAuth2Client (Ref.manager "")
                (Ref.env "verifier-1" Timeout (Some (0%nat, ENOSPC)) (4000 * Second)
                   Ref.strict) w in
   fst out = (Some (oauth2_NewClient
                      {| ts_conf := oauth2Config (Ref.config "");
                         ts_t := Ref.refreshed; ts_refreshToken := "refresh-1" |}), None) /\
   fs w !! "token.json" = Some (File (Ref.encoded Ref.issued) true true) /\
   fs (snd out) !! "token.json" = Some (File "" true true)) /\
  (let w := Ref.cached (Ref.encoded Ref.stale) true true in
   let out := NewOAuth2Client (Ref.manager "")
                (Ref.env "verifier-1" Timeout None (4000 * Second) Ref.strict) w in
   fst out = (Some (oauth2_NewClient
                      {| ts_conf := oauth2Config (Ref.config "");
                         ts_t := Ref.refreshed; ts_refreshToken := "refresh-1" |}), None) /\
   Ref.refreshed <> Ref.stale /\
   fs (snd out) !! "token.json" = Some (File (Ref.encoded Ref.stale) true true)) /\
  (let env := Ref.env "verifier-1" Timeout None (4000 * Second) Ref.strict in
   let w := Ref.cached (Ref.encoded eternal) true true in
   let out := NewOAuth2Client (Ref.manager "") env w in
   Expiry eternal < timeNow env /\
   retrieveToken env (oauth2Config (Ref.config "")) (RefreshToken eternal)
     = Ok Ref.refreshed /\
   AccessToken Ref.refreshed <> AccessToken eternal /\
   fst out = (Some (oauth2_NewClient
                      {| ts_conf := oauth2Config (Ref.config "");
                         ts_t := eternal; ts_refreshToken := "refresh-1" |}), None) /\
   refreshes (trace (snd out)) = [] /\
   fs (snd out) = fs w) /\
  (let env := generous Ref.refreshed
                (Ref.env "verifier-1" Timeout None (4000 * Second) Ref.strict) in
   let w := Ref.cached (Ref.encoded Ref.spent) true true in
   let out := NewOAuth2Client (Ref.manager "") env w in
   Expiry Ref.spent < timeNow env /\
   retrieveToken env (oauth2Config (Ref.config "")) (RefreshToken Ref.spent)
     = Ok Ref.refreshed /\
   fst out = (None, Some (wrapError "validate/refresh token"
                            (errorString
                               "oauth2: token expired and refresh token is not set"))) /\
   refreshes (trace (snd out)) = [] /\
   fs (snd out) = fs w).
Proof.
  cbv zeta. repeat split; try (vm_compute; reflexivity); discriminate.
Qed.

(* ------------------------------------------------------------------ *)
(** ** The other branches of GetToken *)

(** [os.Stat] fails for another reason than a missing file: the error
    goes to the caller as it is and nothing else happens. *)
Lemma GetToken_stat_error m env w errno :
  fs w !! TokenFile (Config_ m) = Some (Broken errno) ->
  errno <> ENOENT ->
  GetToken m env w = ((None, Some (PathError "stat" (TokenFile (Config_ m)) errno)), w).
Proof.
  intros Hn Hne. unfold GetToken. unfold bind at 1.
  unfold os_Stat, bind, get_node, ret. rewrite Hn.
  destruct errno; try reflexivity. contradiction.
Qed.

(** The token file exists and cannot be read: the open error goes to the
    caller, wrapped. *)
Lemma GetToken_unreadable m env w data wr :
  fs w !! TokenFile (Config_ m) = Some (File data false wr) ->
  GetToken m env w =
  ((None, Some (wrapError "load token from file"
                  (PathError "open" (TokenFile (Config_ m)) EACCES))),
   add [EvLog LevelDebug ("Loading token from file: " +:+ TokenFile (Config_ m))] w).
Proof.
  intros Hn. unfold GetToken. unfold bind at 1.
  unfold os_Stat, bind, get_node, ret. rewrite Hn.
  unfold log, emit, load, os_Open, bind, get_node, ret. simpl. rewrite Hn. reflexivity.
Qed.

(** [GetToken] returns a token or an error, never both and never
    neither. *)
Lemma GetToken_token_xor_error m env w :
  match fst (GetToken m env w) with
  | (Some _, None) | (None, Some _) => True
  | _ => False
  end.
Proof.
  destruct (fs w !! TokenFile (Config_ m)) as [[data [|] wr|e|e]|] eqn:Hn.
  - rewrite (GetToken_existing m env w data wr Hn).
    destruct (snd (json_Decode env data zeroToken)); exact I.
  - rewrite (GetToken_unreadable m env w data wr Hn). exact I.
  - assert (Hmiss : tokenFileMissing (TokenFile (Config_ m)) w = true)
      by (unfold tokenFileMissing; rewrite Hn; reflexivity).
    destruct (GetToken_missing m env w Hmiss) as (name & args & quiet & _ & Heq).
    cbv zeta in Heq. rewrite Heq.
    destruct (Exchange env _ _ _) as [token|err]; [|exact I].
    destruct (fst (store env _ token w)); exact I.
  - destruct e;
      try (rewrite (GetToken_stat_error m env w _ Hn ltac:(discriminate)); exact I).
    assert (Hmiss : tokenFileMissing (TokenFile (Config_ m)) w = true)
      by (unfold tokenFileMissing; rewrite Hn; reflexivity).
    destruct (GetToken_missing m env w Hmiss) as (name & args & quiet & _ & Heq).
    cbv zeta in Heq. rewrite Heq.
    destruct (Exchange env _ _ _) as [token|err]; [|exact I].
    destruct (fst (store env _ token w)); exact I.
  - assert (Hmiss : tokenFileMissing (TokenFile (Config_ m)) w = true)
      by (unfold tokenFileMissing; rewrite Hn; reflexivity).
    destruct (GetToken_missing m env w Hmiss) as (name & args & quiet & _ & Heq).
    cbv zeta in Heq. rewrite Heq.
    destruct (Exchange env _ _ _) as [token|err]; [|exact I].
    destruct (fst (store env _ token w)); exact I.
Qed.

(** A wait that ends without a code leaves the empty code for the
    exchange. *)
Lemma endsWithoutCode_empty env : endsWithoutCode env -> receivedCode env = "".
Proof.
  unfold endsWithoutCode, receivedCode.
  destruct (first_signal env); intros H; [exact H | reflexivity | reflexivity].
Qed.

(** After a timeout or a receiver error the outcome of [GetToken] is the
    outcome of the exchange made with the empty code: a token endpoint
    that answers it gets its token stored and returned. *)
Lemma wait_without_code_still_exchanges m env w token :
  tokenFileMissing (TokenFile (Config_ m)) w = true ->
  endsWithoutCode env ->
  Exchange env (oauth2ConfigOAuth2 m) "" [VerifierOption (GenerateVerifier env)] = Ok token ->
  fst (store env (TokenFile (Config_ m)) token w) = None ->
  fst (GetToken m env w) = (Some token, None).
Proof.
  intros Hmiss Hend Hx Hs.
  destruct (GetToken_missing m env w Hmiss) as (name & args & quiet & _ & Heq).
  cbv zeta in Heq. rewrite (endsWithoutCode_empty _ Hend), Hx, Hs in Heq.
  rewrite Heq. reflexivity.
Qed.

(** The redirect URI names the handler's path only while ServerPath is
    left unset or set to the default. *)
Lemma redirect_names_default_path c :
  ServerPath c = "" \/ ServerPath c = defaultServerPath ->
  buildRedirectURL c =
  "http://localhost"
  +:+ (if String.eqb (LocalAddr c) "" then defaultLocalAddr else LocalAddr c)
  +:+ (if String.eqb (ServerPath c) "" then defaultServerPath else ServerPath c).
Proof.
  intros [Hp|Hp]; rewrite Hp; reflexivity.
Qed.

(* ------------------------------------------------------------------ *)
(** ** Runs of the reference environment *)

(** No token file, the browser comes back with the code the provider
    issued: the token is returned and the file holds it. *)
Example first_login :
  let env := Ref.env "verifier-1" (Redirect "code-1") None 0 Ref.strict in
  let out := GetToken (Ref.manager "") env Ref.fresh in
  fst out = (Some Ref.issued, None) /\
  fs (snd out) !! "token.json" = Some (File (Ref.encoded Ref.issued) true true) /\
  handlerPaths (trace (snd out)) = ["/callback"] /\
  redirectURIs (trace (snd out)) = ["http://localhost:15440/callback"].
Proof. cbv zeta. repeat split; vm_compute; reflexivity. Qed.

(** The next call finds the file and only logs that it loads it. *)
Example second_login :
  let env := Ref.env "verifier-1" (Redirect "code-1") None 0 Ref.strict in
  let w := snd (GetToken (Ref.manager "") env Ref.fresh) in
  let out := GetToken (Ref.manager "") env {| fs := fs w; trace := [] |} in
  fst out = (Some Ref.issued, None) /\
  trace (snd out) = [EvLog LevelDebug "Loading token from file: token.json"].
Proof. cbv zeta. repeat split; vm_compute; reflexivity. Qed.

(** An expired credential is refreshed and the file then holds the new
    one. *)
Example refresh_on_expiry :
  let env := Ref.env "verifier-1" Timeout None (4000 * Second) Ref.strict in
  let out := NewOAuth2Client (Ref.manager "") env
               (Ref.cached (Ref.encoded Ref.issued) true true) in
  fst out = (Some (oauth2_NewClient
                     {| ts_conf := oauth2Config (Ref.config "");
                        ts_t := Ref.refreshed; ts_refreshToken := "refresh-1" |}), None) /\
  fs (snd out) !! "token.json" = Some (File (Ref.encoded Ref.refreshed) true true).
Proof. cbv zeta. repeat split; vm_compute; reflexivity. Qed.

(** A timeout against a provider that rejects the empty code: the caller
    gets the error of the exchange. *)
Example timeout_with_strict_provider :
  let env := Ref.env "verifier-1" Timeout None 0 Ref.strict in
  let out := GetToken (Ref.manager "") env Ref.fresh in
  fst out = (None, Some (wrapError "token exchange"
                           (errorString "oauth2: cannot fetch token: 400 Bad Request"))) /\
  fs (snd out) = fs Ref.fresh.
Proof. cbv zeta. repeat split; vm_compute; reflexivity. Qed.

(* ------------------------------------------------------------------ *)
(** ** The statements at concrete inputs *)

Lemma store_load_roundtrip_witness :
  let env := Ref.env "verifier-1" Timeout None 0 Ref.strict in
  let w' := snd (store env "token.json" Ref.issued Ref.fresh) in
  load env "token.json" w' = ((Some Ref.issued, None), w').
Proof.
  cbv zeta.
  apply (store_load_roundtrip _ "token.json" Ref.issued (Ref.encoded Ref.issued) Ref.fresh);
    vm_compute; reflexivity.
Defined.

Lemma GetToken_decides_on_existence_witness :
  let env := Ref.env "verifier-1" Timeout None (4000 * Second) Ref.strict in
  let w := Ref.cached (Ref.encoded Ref.spent) true true in
  Token_Valid (timeNow env) Ref.spent = false /\
  exists evs,
    GetToken (Ref.manager "") env w
      = ((Some Ref.spent, None), {| fs := fs w; trace := trace w ++ evs |}) /\
    Forall (fun ev => is_grant ev = false /\ is_receiver ev = false
                      /\ is_launcher ev = false) evs.
Proof.
  cbv zeta. split; [reflexivity|].
  apply (GetToken_decides_on_existence (Ref.manager "") _ _ (Ref.encoded Ref.spent) true);
    vm_compute; reflexivity.
Defined.

Lemma cache_hit_skips_flow_witness :
  let env := Ref.env "verifier-1" Timeout None (60 * Second) Ref.strict in
  let w := Ref.cached (Ref.encoded Ref.issued) true false in
  exists evs,
    GetToken (Ref.manager "") env w
      = ((Some Ref.issued, None), {| fs := fs w; trace := trace w ++ evs |}) /\
    Forall (fun ev => is_receiver ev = false /\ is_launcher ev = false) evs.
Proof.
  cbv zeta.
  apply (cache_hit_skips_flow (Ref.manager "") _ _ (Ref.encoded Ref.issued) false);
    vm_compute; reflexivity.
Defined.


Lemma exchange_failure_is_terminal_witness :
  let env := Ref.env "verifier-1" (Redirect "code-9") None 0 Ref.strict in
  exists evs,
    GetToken (Ref.manager "") env Ref.fresh =
      ((None, Some (wrapError "token exchange"
                      (errorString "oauth2: cannot fetch token: 400 Bad Request"))),
       {| fs := fs Ref.fresh; trace := trace Ref.fresh ++ evs |}) /\
    length (exchanges evs) = 1%nat.
Proof.
  cbv zeta.
  apply (exchange_failure_is_terminal (Ref.manager "")
           (Ref.env "verifier-1" (Redirect "code-9") None 0 Ref.strict) Ref.fresh);
    vm_compute; reflexivity.
Defined.

Lemma persist_failure_is_fatal_witness :
  let env := Ref.env "verifier-1" (Redirect "code-1") None 0 Ref.strict in
  let w := {| fs := {[ "token.json" := Absent EROFS ]}; trace := [] |} in
  exists w',
    GetToken (Ref.manager "") env w =
      ((None, Some (wrapError "store token" (PathError "open" "token.json" EROFS))), w').
Proof.
  cbv zeta.
  apply (persist_failure_is_fatal (Ref.manager "")
           (Ref.env "verifier-1" (Redirect "code-1") None 0 Ref.strict)
           {| fs := {[ "token.json" := Absent EROFS ]}; trace := [] |} Ref.issued);
    vm_compute; reflexivity.
Defined.

Lemma state_is_a_fixed_string_witness :
  let env := Ref.env "verifier-1" (Redirect "code-1") None 0 Ref.strict in
  exists evs,
    trace (snd (GetToken (Ref.manager "") env Ref.fresh)) = (trace Ref.fresh ++ evs)%list /\
    states evs = ["state-token"].
Proof.
  cbv zeta.
  destruct (state_is_a_fixed_string (Ref.manager "")
              (Ref.env "verifier-1" (Redirect "code-1") None 0 Ref.strict) Ref.fresh)
    as (evs & Htr & Hst & _); [vm_compute; reflexivity|].
  exists evs. split; assumption.
Defined.

Lemma refresh_is_persisted_witness :
  let env := Ref.env "verifier-1" Timeout None (4000 * Second) Ref.strict in
  let w := Ref.cached (Ref.encoded Ref.issued) true true in
  exists evs,
    NewOAuth2Client (Ref.manager "") env w =
      ((Some {| Source := {| ts_conf := oauth2ConfigOAuth2 (Ref.manager "");
                             ts_t := Ref.refreshed;
                             ts_refreshToken := RefreshToken Ref.refreshed |} |}, None),
       {| fs := fs (snd (store env "token.json" Ref.refreshed w));
          trace := trace w ++ evs |}).
Proof.
  cbv zeta.
  destruct (refresh_is_persisted (Ref.manager "")
              (Ref.env "verifier-1" Timeout None (4000 * Second) Ref.strict)
              (Ref.cached (Ref.encoded Ref.issued) true true)
              (Ref.encoded Ref.issued) true Ref.issued Ref.refreshed)
    as (evs & Heq & _);
    [vm_compute; reflexivity | vm_compute; reflexivity | reflexivity
    | vm_compute; reflexivity | vm_compute; discriminate | vm_compute; reflexivity
    | vm_compute; discriminate | ].
  exists evs. exact Heq.
Defined.

(* ------------------------------------------------------------------ *)
(** ** The reference codec reads back what it writes *)

Lemma append_assoc (a b c : string) : (a +:+ b) +:+ c = a +:+ (b +:+ c).
Proof.
  induction a as [|x a IH]; [reflexivity|].
  change (String x ((a +:+ b) +:+ c) = String x (a +:+ (b +:+ c))).
  rewrite IH. reflexivity.
Qed.

Lemma expect_append lit s : Ref.expect lit (lit +:+ s) = Some s.
Proof.
  induction lit as [|x lit IH]; [destruct s; reflexivity|].
  change (Ref.expect (String x lit) (String x (lit +:+ s)) = Some s).
  simpl. rewrite Ascii.eqb_refl. exact IH.
Qed.

Lemma read_body_escape s rest :
  Ref.read_body (Ref.escape s +:+ String Ref.quote rest) = Some (s, rest).
Proof.
  induction s as [|c s IH].
  - reflexivity.
  - simpl Ref.escape.
    destruct (Ascii.eqb c Ref.quote) eqn:Hq; [|destruct (Ascii.eqb c Ref.backslash) eqn:Hb];
      simpl orb; cbv iota.
    + change (Ref.read_body
                (String Ref.backslash
                   (String c (Ref.escape s +:+ String Ref.quote rest)))
              = Some (String c s, rest)).
      simpl Ref.read_body. rewrite IH. reflexivity.
    + change (Ref.read_body
                (String Ref.backslash
                   (String c (Ref.escape s +:+ String Ref.quote rest)))
              = Some (String c s, rest)).
      simpl Ref.read_body. rewrite IH. reflexivity.
    + change (Ref.read_body (String c (Ref.escape s +:+ String Ref.quote rest))
              = Some (String c s, rest)).
      simpl Ref.read_body. rewrite Hq, Hb, IH. reflexivity.
Qed.

Lemma read_quoted_append s rest :
  Ref.read_quoted (Ref.quoted s +:+ rest) = Some (s, rest).
Proof.
  unfold Ref.quoted.
  change (Ref.read_quoted
            (String Ref.quote ((Ref.escape s +:+ String Ref.quote "") +:+ rest))
          = Some (s, rest)).
  rewrite append_assoc. simpl Ref.read_quoted.
  apply read_body_escape.
Qed.

Lemma field_append name v rest :
  Ref.field name (Ref.key name +:+ Ref.quoted v +:+ rest) = Some (v, rest).
Proof.
  unfold Ref.field. rewrite expect_append. apply read_quoted_append.
Qed.

Lemma parse_print_Z z : Ref.parse_Z (Ref.print_Z z) = Some z.
Proof.
  unfold Ref.parse_Z, Ref.print_Z. rewrite NilEmpty.isi. simpl.
  rewrite DecimalZ.of_to. reflexivity.
Qed.

Lemma option_bind_Some {A B} (f : A -> option B) (x : A) : Some x ≫= f = f x.
Proof. reflexivity. Qed.

(** The reference codec decodes every token it has marshalled. *)
Lemma Ref_parse_encoded (t : Token) : Ref.parse (Ref.encoded t) = Some t.
Proof.
  unfold Ref.encoded, Ref.Marshal, Ref.parse.
  repeat (first [ rewrite expect_append | rewrite field_append
                | rewrite parse_print_Z
                | rewrite option_bind_Some; cbv beta iota ]).
  destruct t; reflexivity.
Qed.

Lemma Ref_Decode_encoded (t : Token) :
  Ref.Decode (Ref.encoded t) zeroToken = (t, None).
Proof.
  unfold Ref.Decode. rewrite Ref_parse_encoded.
  unfold Ref.encoded, Ref.Marshal. reflexivity.
Qed.

(** With the reference codec every token survives [store] then [load]. *)
Lemma Ref_store_load verifier sig now exchange fileName (t : Token) w w' :
  let env := Ref.env verifier sig None now exchange in
  store env fileName t w = (None, w') ->
  load env fileName w' = ((Some t, None), w').
Proof.
  intros env Hs.
  destruct (store_succeeds _ _ _ _ _ Hs) as (data & wr & Hm & Hn).
  rewrite (load_readable _ _ _ _ _ Hn).
  injection Hm as <-.
  change (json_Decode env _ zeroToken) with (Ref.Decode (Ref.encoded t) zeroToken).
  rewrite Ref_Decode_encoded. reflexivity.
Qed.

(* ------------------------------------------------------------------ *)
(** ** More on the token store *)

(** X1: a [store] that succeeds replaces the file by exactly the
    marshalled token, readable and writable by the caller, whatever the
    file held before; nothing else changes. *)
Theorem store_success_replaces_file env fileName token w w' :
  store env fileName token w = (None, w') ->
  exists data,
    json_Marshal env token = Ok data /\
    w' = {| fs := <[fileName := File data true true]> (fs w); trace := trace w |}.
Proof.
  go_unfold.
  destruct (fs w !! fileName) as [[d rd wr|e|e]|] eqn:Hn; simpl; try discriminate.
  - destruct rd, wr; simpl; try discriminate.
    destruct (json_Marshal env token) as [data|msg]; simpl; try discriminate.
    rewrite lookup_insert_eq. destruct (write_fault env) as [[k e]|]; try discriminate.
    intros [= <-]. exists data. split; [reflexivity|]. simpl.
    rewrite insert_insert_eq. reflexivity.
  - destruct (json_Marshal env token) as [data|msg]; simpl; try discriminate.
    rewrite lookup_insert_eq. destruct (write_fault env) as [[k e]|]; try discriminate.
    intros [= <-]. exists data. split; [reflexivity|]. simpl.
    rewrite insert_insert_eq. reflexivity.
Qed.

(** [store] changes no other path, whatever its outcome. *)
Lemma store_other_path env fileName token w other :
  other <> fileName ->
  fs (snd (store env fileName token w)) !! other = fs w !! other.
Proof.
  intros Hne. go_unfold.
  destruct (fs w !! fileName) as [[d rd wr|e|e]|] eqn:Hn; simpl; try reflexivity.
  - destruct rd, wr; simpl; try reflexivity;
      (destruct (json_Marshal env token) as [data|msg]; simpl;
       [rewrite lookup_insert_eq; destruct (write_fault env) as [[k e]|]; simpl|];
       rewrite ?lookup_insert_ne by congruence; reflexivity).
  - destruct (json_Marshal env token) as [data|msg]; simpl;
      [rewrite lookup_insert_eq; destruct (write_fault env) as [[k e]|]; simpl|];
      rewrite ?lookup_insert_ne by congruence; reflexivity.
Qed.

(** X2: whatever its outcome, [store] leaves every other path of the file
    system as it was and makes no call to a collaborator. *)
Theorem store_touches_one_path env fileName token w other :
  other <> fileName ->
  fs (snd (store env fileName token w)) !! other = fs w !! other /\
  trace (snd (store env fileName token w)) = trace w.
Proof.
  intros Hne. split; [apply store_other_path, Hne | apply store_trace].
Qed.

(** X3: a [store] that fails either failed to open the file, and then the
    world is as it was, or failed after the truncating open, and then the
    file holds no byte of its old content: it is empty (the token could
    not be marshalled) or holds the first bytes of the new encoding (the
    write broke off). *)
Theorem store_failure_shape env fileName token w err w' :
  store env fileName token w = (Some err, w') ->
  (w' = w /\ exists errno, err = PathError "open" fileName errno) \/
  (exists rd wr,
     (fs w' !! fileName = Some (File "" rd wr) /\ exists msg, err = jsonError msg) \/
     (exists data k errno,
        json_Marshal env token = Ok data /\
        fs w' !! fileName = Some (File (take_bytes k data) rd wr) /\
        err = PathError "write" fileName errno)).
Proof.
  go_unfold.
  destruct (fs w !! fileName) as [[d rd wr|e|e]|] eqn:Hn; simpl.
  - destruct rd, wr; simpl;
      try (intros [= <- <-]; left; split; [reflexivity|eexists; reflexivity]).
    destruct (json_Marshal env token) as [data|msg]; simpl.
    + rewrite lookup_insert_eq. destruct (write_fault env) as [[k e]|]; [|discriminate].
      intros [= <- <-]. right. exists true, true. right. exists data, k, e.
      split; [reflexivity|]. split; [|reflexivity]. simpl. apply lookup_insert_eq.
    + intros [= <- <-]. right. exists true, true. left.
      split; [simpl; apply lookup_insert_eq | eexists; reflexivity].
  - intros [= <- <-]. left. split; [reflexivity|eexists; reflexivity].
  - intros [= <- <-]. left. split; [reflexivity|eexists; reflexivity].
  - destruct (json_Marshal env token) as [data|msg]; simpl.
    + rewrite lookup_insert_eq. destruct (write_fault env) as [[k e]|]; [|discriminate].
      intros [= <- <-]. right. exists true, true. right. exists data, k, e.
      split; [reflexivity|]. split; [|reflexivity]. simpl. apply lookup_insert_eq.
    + intros [= <- <-]. right. exists true, true. left.
      split; [simpl; apply lookup_insert_eq | eexists; reflexivity].
Qed.

(** X4: [load] never changes the world; it returns no token exactly when
    the file cannot be opened, and the error is then the one of the open;
    when the file opens it returns a token even if decoding fails. *)
Theorem load_is_read_only env fileName w :
  snd (load env fileName w) = w /\
  match fst (load env fileName w) with
  | (None, err) =>
      (exists errno, err = Some (PathError "open" fileName errno)) /\
      forall data wr, fs w !! fileName <> Some (File data true wr)
  | (Some token, err) =>
      exists data wr,
        fs w !! fileName = Some (File data true wr) /\
        token = fst (json_Decode env data zeroToken) /\
        err = option_map jsonError (snd (json_Decode env data zeroToken))
  end.
Proof.
  go_unfold.
  destruct (fs w !! fileName) as [[d rd wr|e|e]|] eqn:Hn; simpl.
  - destruct rd; simpl.
    + rewrite Hn. split; [destruct (json_Decode env d zeroToken); reflexivity|].
      destruct (json_Decode env d zeroToken) as [t err] eqn:Hd. simpl.
      exists d, wr. rewrite Hd. repeat split.
    + split; [reflexivity|]. split; [eexists; reflexivity|]. congruence.
  - split; [reflexivity|]. split; [eexists; reflexivity|]. congruence.
  - split; [reflexivity|]. split; [eexists; reflexivity|]. congruence.
  - split; [reflexivity|]. split; [eexists; reflexivity|]. congruence.
Qed.

(* ------------------------------------------------------------------ *)
(** ** The browser launcher *)

(** The command [openURL] starts. *)
Lemma openURL_command env url :
  exists name args,
    (forall w, openURL env url w = (exec_Start env name args, add [EvStart name args] w)) /\
    List.last args "" = url /\
    In name ["rundll32"; "open"; "xdg-open"] /\
    (GOOS env <> "windows" -> GOOS env <> "darwin" ->
     name = "xdg-open" /\ args = [url]).
Proof.
  unfold openURL.
  destruct (String.eqb (GOOS env) "windows") eqn:Hw;
    [|destruct (String.eqb (GOOS env) "darwin") eqn:Hd];
    do 2 eexists; (split; [intros w; reflexivity|]); (split; [reflexivity|]);
    (split; [simpl; tauto|]).
  - apply String.eqb_eq in Hw. intros Hne. contradiction.
  - apply String.eqb_eq in Hd. intros _ Hne. contradiction.
  - intros _ _. split; reflexivity.
Qed.

(** X5: on every operating system [openURL] starts exactly one command,
    one of rundll32, open and xdg-open (the last on every system that is
    neither windows nor darwin), with the URL as its last argument,
    returns what starting it returned and leaves the file system alone. *)
Theorem openURL_starts_one_command env url w :
  exists name args,
    openURL env url w =
      (exec_Start env name args,
       {| fs := fs w; trace := trace w ++ [EvStart name args] |}) /\
    List.last args "" = url /\
    In name ["rundll32"; "open"; "xdg-open"] /\
    (GOOS env <> "windows" -> GOOS env <> "darwin" ->
     name = "xdg-open" /\ args = [url]).
Proof.
  destruct (openURL_command env url) as (name & args & Heq & Hrest).
  exists name, args. split; [apply Heq | exact Hrest].
Qed.

(* ------------------------------------------------------------------ *)
(** ** The shape of an interactive flow *)

Lemma Writer_eqb_refl wr : Writer_eqb wr wr = true.
Proof. destruct wr; simpl; [reflexivity|apply Nat.eqb_refl]. Qed.

Lemma Writer_eqb_eq a b : Writer_eqb a b = true -> a = b.
Proof.
  destruct a, b; simpl; try discriminate; try reflexivity.
  intros H. apply Nat.eqb_eq in H. congruence.
Qed.

(** The wait only talks: to the logger, to the browser, to the writer of
    the manager. *)
Lemma waitForCode_messages m env :
  exists msgs,
    Forall (fun ev => is_message (GetWriter m) ev = true) msgs /\
    forall w, waitForCode m env w = (receivedCode env, add msgs w).
Proof.
  unfold waitForCode, receivedCode, callbackHandler.
  destruct (first_signal env) as [code|err|].
  - destruct (String.eqb code "") eqn:Hc.
    + apply String.eqb_eq in Hc as ->.
      eexists. split; [|intros w; unfold bind, log, emit, ret, add; simpl;
                         rewrite <- !app_assoc; reflexivity].
      simpl. repeat constructor.
    + eexists. split; [|intros w; unfold bind, log, emit, ret, add; simpl;
                         rewrite <- !app_assoc; reflexivity].
      simpl. repeat constructor. simpl. apply Writer_eqb_refl.
  - eexists. split; [|intros w; unfold bind, log, emit, ret, add; simpl; reflexivity].
    repeat constructor.
  - eexists. split; [|intros w; unfold bind, log, emit, ret, add; simpl; reflexivity].
    repeat constructor.
Qed.

(** Every interactive flow goes through the same steps: it asks for the
    authorization URL, registers the handler, starts the server, announces
    and starts the browser; it talks ([before]) until the wait is over,
    shuts the server down, talks again ([after]), makes one exchange and
    may log a last record ([tail]). *)
Lemma GetToken_flow_shape m env w :
  tokenFileMissing (TokenFile (Config_ m)) w = true ->
  exists name args before after tail,
    Forall (fun ev => is_message (GetWriter m) ev = true) before /\
    Forall (fun ev => is_message (GetWriter m) ev = true) after /\
    Forall (fun ev => is_message (GetWriter m) ev = true) tail /\
    (forall w0,
       openURL env
         (AuthCodeURL env (oauth2ConfigOAuth2 m) "state-token"
            [AccessTypeOffline; S256ChallengeOption (GenerateVerifier env)]) w0
       = (exec_Start env name args, add [EvStart name args] w0)) /\
    (forall lerr, exec_Start env name args = Some lerr ->
       exists rest,
         before =
         (EvLog LevelWarn ("Failed to open browser: " +:+ Error lerr)
          :: EvWrite (GetWriter m)
               ("Please open the following URL in your browser:" +:+ nl
                +:+ AuthCodeURL env (oauth2ConfigOAuth2 m) "state-token"
                      [AccessTypeOffline; S256ChallengeOption (GenerateVerifier env)]
                +:+ nl)
          :: rest)) /\
    (forall serr, Shutdown env = Some serr ->
       exists rest,
         after = EvLog LevelError ("Server shutdown error: " +:+ Error serr) :: rest) /\
    trace (snd (GetToken m env w)) =
    (trace w ++
     [EvAuthCodeURL (oauth2ConfigOAuth2 m) "state-token"
        [AccessTypeOffline; S256ChallengeOption (GenerateVerifier env)];
      EvHandleFunc (callbackPath (Config_ m));
      EvListenAndServe (listenAddr (Config_ m));
      EvWrite Stdout ("Opening browser for authentication..." +:+ nl);
      EvStart name args]
     ++ before ++ [EvShutdown] ++ after
     ++ [EvExchange (oauth2ConfigOAuth2 m) (receivedCode env)
           [VerifierOption (GenerateVerifier env)]]
     ++ tail)%list.
Proof.
  intros Hmiss.
  destruct (openURL_runs env
              (AuthCodeURL env (oauth2ConfigOAuth2 m) "state-token"
                 [AccessTypeOffline; S256ChallengeOption (GenerateVerifier env)]))
    as (name & args & Hopen).
  destruct (waitForCode_messages m env) as (msgs & Hmsgs & Hwait).
  exists name, args.
  unfold callbackPath, listenAddr.
  cbv beta zeta delta [GetToken bind log].
  rewrite (Stat_missing _ _ Hmiss). cbv beta iota delta [os_IsNotExist negb].
  rewrite !emit_add. cbv beta iota. rewrite Hopen. cbv beta iota.
  destruct w as [f tr].
  eexists (match exec_Start env name args with Some _ => [_; _] | None => [] end
           ++ msgs)%list,
          (match Shutdown env with Some _ => [_] | None => [] end ++ [_])%list,
          (match Exchange env (oauth2ConfigOAuth2 m) (receivedCode env)
                   [VerifierOption (GenerateVerifier env)] with
           | Ok token =>
               match fst (store env (TokenFile (Config_ m)) token
                            {| fs := f; trace := tr |}) with
               | Some _ => []
               | None => [_]
               end
           | Err _ => []
           end).
  assert (Htrace : forall A B (x : A * B) (g : World),
             trace (snd (x, g)) = trace g) by reflexivity.
  cut (forall P Q R S U V T : Prop,
         T -> S -> (T -> P /\ Q /\ R /\ U /\ V) -> P /\ Q /\ R /\ S /\ U /\ V /\ T).
  { intros Hcut. apply Hcut; clear Hcut.
    - destruct (exec_Start env name args) as [lerr|];
        destruct (Shutdown env) as [serr|];
        rewrite ?emit_add; cbv beta iota; unfold ret;
        rewrite ?Hwait; rewrite ?emit_add; cbv beta iota;
        rewrite ?emit_add; cbv beta iota;
        rewrite !add_add; unfold add; simpl fs; simpl trace;
        (destruct (Exchange env _ _ _) as [token|err];
         [ rewrite (store_frame env _ token f tr);
           destruct (fst (store env _ token {| fs := f; trace := tr |}));
           cbv beta iota; rewrite ?emit_add; unfold add; simpl fs; simpl trace
         | ]);
        simpl snd; simpl trace;
        repeat (first [rewrite <- app_assoc | rewrite app_nil_r | progress simpl]);
        reflexivity.
    - exact Hopen.
    - intros _.
      destruct (exec_Start env name args) as [lerr|];
        destruct (Shutdown env) as [serr|];
        (destruct (Exchange env _ _ _) as [token|err];
         [destruct (fst (store env _ token {| fs := f; trace := tr |}))|]);
        (split; [|split; [|split; [|split]]]);
        try (intros ? [=]; subst; eexists; reflexivity);
        try (intros ? [=]);
        repeat (apply Forall_app; split); try exact Hmsgs;
        repeat constructor; simpl; apply Writer_eqb_refl. }
  tauto.
Qed.

Lemma steps_app evs evs' : steps (evs ++ evs') = (steps evs ++ steps evs')%list.
Proof. unfold steps. apply List.filter_app. Qed.

Lemma messages_steps wr msgs :
  Forall (fun ev => is_message wr ev = true) msgs -> steps msgs = [].
Proof.
  induction 1 as [|ev l Hev _ IH]; [reflexivity|].
  unfold steps in *. simpl. rewrite IH. destruct ev; try discriminate; reflexivity.
Qed.

Lemma messages_In wr msgs ev :
  Forall (fun ev => is_message wr ev = true) msgs -> In ev msgs -> is_message wr ev = true.
Proof. intros Hq Hin. rewrite Forall_forall in Hq. apply Hq, list_elem_of_In, Hin. Qed.



(** X6: the first interactive flow of a process, on a callback path that
    the mux accepts, takes these steps, once each and in this order: the
    authorization URL is built, the handler registered on the callback
    path, the server started on the listen address, the browser launched
    with that URL, the server shut down, and only then the code that the
    wait left exchanged. *)
Theorem flow_steps_in_order m env w :
  tokenFileMissing (TokenFile (Config_ m)) w = true ->
  freshMux w = true ->
  plainPattern (callbackPath (Config_ m)) = true ->
  exists name args evs,
    trace (snd (GetToken m env w)) = (trace w ++ evs)%list /\
    List.last args "" =
      AuthCodeURL env (oauth2ConfigOAuth2 m) "state-token"
        [AccessTypeOffline; S256ChallengeOption (GenerateVerifier env)] /\
    steps evs =
      [EvAuthCodeURL (oauth2ConfigOAuth2 m) "state-token"
         [AccessTypeOffline; S256ChallengeOption (GenerateVerifier env)];
       EvHandleFunc (callbackPath (Config_ m));
       EvListenAndServe (listenAddr (Config_ m));
       EvStart name args;
       EvShutdown;
       EvExchange (oauth2ConfigOAuth2 m) (receivedCode env)
         [VerifierOption (GenerateVerifier env)]].
Proof.
  intros Hmiss _ _.
  destruct (GetToken_flow_shape m env w Hmiss)
    as (name & args & before & after & tail & Hb & Ha & Ht & Hopen & _ & _ & Htr).
  exists name, args. eexists. split; [exact Htr|]. split.
  - destruct (openURL_command env
                (AuthCodeURL env (oauth2ConfigOAuth2 m) "state-token"
                   [AccessTypeOffline; S256ChallengeOption (GenerateVerifier env)]))
      as (name' & args' & Heq & Hlast & _).
    specialize (Heq {| fs := ∅; trace := [] |}).
    rewrite Hopen in Heq. unfold add in Heq. simpl in Heq.
    injection Heq as _ _ Hargs. rewrite Hargs. exact Hlast.
  - rewrite !steps_app, (messages_steps _ _ Hb), (messages_steps _ _ Ha),
      (messages_steps _ _ Ht).
    reflexivity.
Qed.

(** X7: in an interactive flow everything the manager prints goes to its
    writer (standard output when none is set), except the line announcing
    the browser, which always goes to standard output. *)
Theorem flow_output_goes_to_writer m env w :
  tokenFileMissing (TokenFile (Config_ m)) w = true ->
  exists evs,
    trace (snd (GetToken m env w)) = (trace w ++ evs)%list /\
    forall wr text, In (EvWrite wr text) evs ->
      wr = GetWriter m \/
      (wr = Stdout /\ text = "Opening browser for authentication..." +:+ nl).
Proof.
  intros Hmiss.
  destruct (GetToken_flow_shape m env w Hmiss)
    as (name & args & before & after & tail & Hb & Ha & Ht & _ & _ & _ & Htr).
  eexists. split; [exact Htr|].
  intros wr text Hin. simpl in Hin.
  destruct Hin as [Heq|[Heq|[Heq|[Heq|[Heq|Hin]]]]]; try discriminate.
  - injection Heq as <- <-. right. split; reflexivity.
  - left. apply Writer_eqb_eq.
    apply in_app_or in Hin as [Hin|Hin]; [exact (messages_In _ _ _ Hb Hin)|].
    destruct Hin as [Heq|Hin]; [discriminate|].
    apply in_app_or in Hin as [Hin|Hin]; [exact (messages_In _ _ _ Ha Hin)|].
    destruct Hin as [Heq|Hin]; [discriminate|].
    exact (messages_In _ _ _ Ht Hin).
Qed.

(** X8: a browser that cannot be launched does not stop the flow: the
    failure is logged as a warning, the authorization URL is printed on
    the manager's writer for the user to open, and [GetToken] goes on to
    the wait and the exchange, returning the token when these succeed. *)
Theorem launcher_failure_is_not_fatal m env w lerr token :
  tokenFileMissing (TokenFile (Config_ m)) w = true ->
  (forall name args, exec_Start env name args = Some lerr) ->
  Exchange env (oauth2ConfigOAuth2 m) (receivedCode env)
    [VerifierOption (GenerateVerifier env)] = Ok token ->
  fst (store env (TokenFile (Config_ m)) token w) = None ->
  fst (GetToken m env w) = (Some token, None) /\
  exists evs,
    trace (snd (GetToken m env w)) = (trace w ++ evs)%list /\
    In (EvLog LevelWarn ("Failed to open browser: " +:+ Error lerr)) evs /\
    In (EvWrite (GetWriter m)
          ("Please open the following URL in your browser:" +:+ nl
           +:+ AuthCodeURL env (oauth2ConfigOAuth2 m) "state-token"
                 [AccessTypeOffline; S256ChallengeOption (GenerateVerifier env)]
           +:+ nl)) evs.
Proof.
  intros Hmiss Hfail Hx Hs. split.
  - destruct (GetToken_missing m env w Hmiss) as (name & args & quiet & _ & Heq).
    cbv zeta in Heq. rewrite Hx, Hs in Heq. rewrite Heq. reflexivity.
  - destruct (GetToken_flow_shape m env w Hmiss)
      as (name & args & before & after & tail & _ & _ & _ & _ & Hl & _ & Htr).
    destruct (Hl lerr (Hfail name args)) as (rest & ->).
    eexists. split; [exact Htr|].
    split; simpl; tauto.
Qed.

(** X9: an error of the shutdown that is not the end of its context (a
    listener that fails to close) does not stop the flow: the error is
    logged and the exchange, which runs on that same context, is made all
    the same. *)
Theorem shutdown_error_is_not_fatal m env w serr token :
  tokenFileMissing (TokenFile (Config_ m)) w = true ->
  Shutdown env = Some serr ->
  is_context_error serr = false ->
  Exchange env (oauth2ConfigOAuth2 m) (receivedCode env)
    [VerifierOption (GenerateVerifier env)] = Ok token ->
  fst (store env (TokenFile (Config_ m)) token w) = None ->
  fst (GetToken m env w) = (Some token, None) /\
  exists evs,
    trace (snd (GetToken m env w)) = (trace w ++ evs)%list /\
    In (EvLog LevelError ("Server shutdown error: " +:+ Error serr)) evs.
Proof.
  intros Hmiss Hsd _ Hx Hs. split.
  - destruct (GetToken_missing m env w Hmiss) as (name & args & quiet & _ & Heq).
    cbv zeta in Heq. rewrite Hx, Hs in Heq. rewrite Heq. reflexivity.
  - destruct (GetToken_flow_shape m env w Hmiss)
      as (name & args & before & after & tail & _ & _ & _ & _ & _ & Hl & Htr).
    destruct (Hl serr Hsd) as (rest & ->).
    eexists. split; [exact Htr|].
    simpl. do 5 right. apply in_or_app. right. simpl. tauto.
Qed.


(* ------------------------------------------------------------------ *)
(** ** More on GetToken *)

(** X11: when [os.Stat] on the token file fails for another reason than
    a missing file, [GetToken] returns that error as it is, unwrapped, and
    does nothing else: no load, no interactive flow. *)
Theorem stat_failure_is_returned_as_is m env w errno :
  fs w !! TokenFile (Config_ m) = Some (Broken errno) ->
  errno <> ENOENT ->
  GetToken m env w = ((None, Some (PathError "stat" (TokenFile (Config_ m)) errno)), w) /\
  os_IsNotExist (PathError "stat" (TokenFile (Config_ m)) errno) = false.
Proof.
  intros Hn Hne. split; [apply GetToken_stat_error; assumption|].
  destruct errno; try reflexivity. contradiction.
Qed.

(** X12: a token file that exists but may not be read makes [GetToken]
    return the permission error of the open, wrapped; the interactive flow
    is not started and the file is left alone. *)
Theorem unreadable_token_file_is_an_error m env w data wr :
  fs w !! TokenFile (Config_ m) = Some (File data false wr) ->
  exists evs,
    GetToken m env w =
      ((None, Some (wrapError "load token from file"
                      (PathError "open" (TokenFile (Config_ m)) EACCES))),
       {| fs := fs w; trace := trace w ++ evs |}) /\
    steps evs = [].
Proof.
  intros Hn. rewrite (GetToken_unreadable m env w data wr Hn).
  eexists. split; reflexivity.
Qed.

(** What [GetToken] leaves on disk: what was there, or what [store] made
    of it. *)
Lemma GetToken_fs m env w :
  fs (snd (GetToken m env w)) = fs w \/
  exists token,
    fs (snd (GetToken m env w)) = fs (snd (store env (TokenFile (Config_ m)) token w)).
Proof.
  assert (Hflow : tokenFileMissing (TokenFile (Config_ m)) w = true ->
            fs (snd (GetToken m env w)) = fs w \/
            exists token,
              fs (snd (GetToken m env w))
              = fs (snd (store env (TokenFile (Config_ m)) token w))).
  { intros Hmiss.
    destruct (GetToken_missing m env w Hmiss) as (name & args & quiet & _ & Heq).
    cbv zeta in Heq. rewrite Heq.
    destruct (Exchange env _ _ _) as [token|err]; [|left; reflexivity].
    right. exists token. destruct (fst (store env _ token w)); reflexivity. }
  destruct (fs w !! TokenFile (Config_ m)) as [[data [|] wr|e|e]|] eqn:Hn.
  - rewrite (GetToken_existing m env w data wr Hn). left. reflexivity.
  - rewrite (GetToken_unreadable m env w data wr Hn). left. reflexivity.
  - apply Hflow. unfold tokenFileMissing. rewrite Hn. reflexivity.
  - destruct e;
      try (rewrite (GetToken_stat_error m env w _ Hn ltac:(discriminate));
           left; reflexivity).
    apply Hflow. unfold tokenFileMissing. rewrite Hn. reflexivity.
  - apply Hflow. unfold tokenFileMissing. rewrite Hn. reflexivity.
Qed.

(** X13: a first login followed by a second call: when the flow ends with
    a token that is stored, the next [GetToken], whoever makes it, finds
    the file, returns the same token and contacts neither the user nor the
    provider. *)
Theorem login_then_cache_hit m env env' w token data :
  tokenFileMissing (TokenFile (Config_ m)) w = true ->
  Exchange env (oauth2ConfigOAuth2 m) (receivedCode env)
    [VerifierOption (GenerateVerifier env)] = Ok token ->
  fst (store env (TokenFile (Config_ m)) token w) = None ->
  json_Marshal env token = Ok data ->
  json_Decode env' data zeroToken = (token, None) ->
  let w1 := snd (GetToken m env w) in
  fst (GetToken m env w) = (Some token, None) /\
  (exists wr, fs w1 !! TokenFile (Config_ m) = Some (File data true wr)) /\
  exists evs,
    GetToken m env' w1 = ((Some token, None), {| fs := fs w1; trace := trace w1 ++ evs |}) /\
    steps evs = [].
Proof.
  intros Hmiss Hx Hs Hm Hd w1.
  destruct (GetToken_missing m env w Hmiss) as (name & args & quiet & _ & Heq).
  cbv zeta in Heq. rewrite Hx, Hs in Heq.
  assert (Hn : exists wr, fs w1 !! TokenFile (Config_ m) = Some (File data true wr)).
  { subst w1. rewrite Heq. simpl.
    destruct (store env (TokenFile (Config_ m)) token w) as [r ws] eqn:Hst.
    simpl in Hs. subst r.
    destruct (store_succeeds _ _ _ _ _ Hst) as (data' & wr & Hm' & Hn).
    rewrite Hm in Hm'. injection Hm' as <-. exists wr. exact Hn. }
  split; [rewrite Heq; reflexivity|]. split; [exact Hn|].
  destruct Hn as (wr & Hn).
  rewrite (GetToken_existing m env' w1 data wr Hn), Hd. simpl.
  eexists. split; reflexivity.
Qed.

(** X14: in a process that has registered no handler yet, and on a
    callback path that the mux accepts, [GetToken] and [NewOAuth2Client]
    return a value or an error, never both and never neither. *)
Theorem results_are_value_xor_error m env w :
  freshMux w = true ->
  plainPattern (callbackPath (Config_ m)) = true ->
  match fst (GetToken m env w) with
  | (Some _, None) | (None, Some _) => True
  | _ => False
  end /\
  match fst (NewOAuth2Client m env w) with
  | (Some _, None) | (None, Some _) => True
  | _ => False
  end.
Proof.
  intros _ _.
  split; [apply GetToken_token_xor_error|].
  unfold NewOAuth2Client. unfold bind at 1.
  destruct (GetToken m env w) as [[tok err] w1].
  destruct err as [err|]; [destruct tok; exact I|].
  destruct tok as [t|]; [|exact I].
  unfold bind at 1. unfold TokenSource_Token.
  destruct (Token_Valid _ _); [|destruct (String.eqb _ "")].
  - unfold ret at 1. cbv beta iota. unfold bind, log, emit, ret.
    destruct (negb _); [destruct (store env _ _ _) as [[e|] ws]|]; exact I.
  - exact I.
  - unfold bind at 1. rewrite emit_add.
    destruct (retrieveToken env _ _) as [tk|e]; [|exact I].
    unfold ret at 1. cbv beta iota. unfold bind, log, emit, ret.
    destruct (negb _); [destruct (store env _ _ _) as [[e|] ws]|]; exact I.
Qed.

(* ------------------------------------------------------------------ *)
(** ** More on NewOAuth2Client *)

(** A token that is still valid is handed out as it is: no request, no
    store. *)
Lemma NewOAuth2Client_valid m env w (t : Token) w1 :
  GetToken m env w = ((Some t, None), w1) ->
  Token_Valid (timeNow env) t = true ->
  NewOAuth2Client m env w = ((Some (oauth2_NewClient (TokenSource_ m t)), None), w1).
Proof.
  intros HG Hv. unfold NewOAuth2Client. unfold bind at 1. rewrite HG. cbv beta iota.
  unfold bind at 1. unfold TokenSource_Token, TokenSource_, Config_TokenSource.
  cbn [ts_t ts_refreshToken ts_conf]. rewrite Hv. unfold ret at 1. cbv beta iota.
  rewrite String.eqb_refl. reflexivity.
Qed.

(** X15: with a stored credential that is still valid [NewOAuth2Client]
    returns a client whose source holds that credential, without any
    request to the provider, any flow or any write to the token file. *)
Theorem valid_cached_token_is_used_as_is m env w data wr (t : Token) :
  fs w !! TokenFile (Config_ m) = Some (File data true wr) ->
  json_Decode env data zeroToken = (t, None) ->
  Token_Valid (timeNow env) t = true ->
  exists evs,
    NewOAuth2Client m env w =
      ((Some {| Source := {| ts_conf := oauth2ConfigOAuth2 m; ts_t := t;
                             ts_refreshToken := RefreshToken t |} |}, None),
       {| fs := fs w; trace := trace w ++ evs |}) /\
    steps evs = [].
Proof.
  intros Hn Hd Hv.
  assert (HG := GetToken_existing m env w data wr Hn). rewrite Hd in HG. simpl in HG.
  rewrite (NewOAuth2Client_valid m env w t _ HG Hv).
  eexists. split; reflexivity.
Qed.

(** X16: a stored credential that is no longer valid and carries no
    refresh token cannot be used: [NewOAuth2Client] returns the error of
    the token source, wrapped; it neither asks the provider nor starts the
    interactive flow, and the token file stays as it is. *)
Theorem expired_token_without_refresh_token m env w data wr (t : Token) :
  fs w !! TokenFile (Config_ m) = Some (File data true wr) ->
  json_Decode env data zeroToken = (t, None) ->
  Token_Valid (timeNow env) t = false ->
  RefreshToken t = "" ->
  exists evs,
    NewOAuth2Client m env w =
      ((None, Some (wrapError "validate/refresh token"
                      (errorString "oauth2: token expired and refresh token is not set"))),
       {| fs := fs w; trace := trace w ++ evs |}) /\
    steps evs = [].
Proof.
  intros Hn Hd Hv Hrt.
  assert (HG := GetToken_existing m env w data wr Hn). rewrite Hd in HG. simpl in HG.
  unfold NewOAuth2Client. unfold bind at 1. rewrite HG. cbv beta iota.
  unfold bind at 1. unfold TokenSource_Token, TokenSource_, Config_TokenSource.
  cbn [ts_t ts_refreshToken ts_conf]. rewrite Hv, Hrt. simpl String.eqb. cbv iota.
  unfold ret at 1. cbv beta iota.
  eexists. split; reflexivity.
Qed.

(** X17: when the provider rejects the refresh token of an expired stored
    credential, [NewOAuth2Client] returns the provider's error, wrapped,
    after that one request; the token file stays as it is and no
    interactive flow is started. *)
Theorem rejected_refresh_is_an_error m env w data wr (t : Token) err :
  fs w !! TokenFile (Config_ m) = Some (File data true wr) ->
  json_Decode env data zeroToken = (t, None) ->
  Token_Valid (timeNow env) t = false ->
  RefreshToken t <> "" ->
  retrieveToken env (oauth2ConfigOAuth2 m) (RefreshToken t) = Err err ->
  exists evs,
    NewOAuth2Client m env w =
      ((None, Some (wrapError "validate/refresh token" err)),
       {| fs := fs w; trace := trace w ++ evs |}) /\
    steps evs = [EvRefresh (oauth2ConfigOAuth2 m) (RefreshToken t)].
Proof.
  intros Hn Hd Hv Hrt Hr.
  assert (HG := GetToken_existing m env w data wr Hn). rewrite Hd in HG. simpl in HG.
  apply String.eqb_neq in Hrt.
  unfold NewOAuth2Client. unfold bind at 1. rewrite HG. cbv beta iota.
  unfold bind at 1. unfold TokenSource_Token, TokenSource_, Config_TokenSource.
  cbn [ts_t ts_refreshToken ts_conf]. rewrite Hv, Hrt.
  unfold bind at 1. rewrite emit_add, Hr. unfold ret at 1. cbv beta iota.
  unfold add. simpl fs. simpl trace. rewrite <- app_assoc.
  eexists. split; reflexivity.
Qed.

(** X18: a first login through [NewOAuth2Client]: when the flow ends with
    a valid token that is stored, the client's source holds that token,
    the token was written once, by [GetToken], and the provider saw one
    exchange and no refresh. *)
Theorem first_login_yields_a_client m env w (token : Token) :
  tokenFileMissing (TokenFile (Config_ m)) w = true ->
  Exchange env (oauth2ConfigOAuth2 m) (receivedCode env)
    [VerifierOption (GenerateVerifier env)] = Ok token ->
  fst (store env (TokenFile (Config_ m)) token w) = None ->
  Token_Valid (timeNow env) token = true ->
  NewOAuth2Client m env w =
    ((Some {| Source := {| ts_conf := oauth2ConfigOAuth2 m; ts_t := token;
                           ts_refreshToken := RefreshToken token |} |}, None),
     snd (GetToken m env w)) /\
  fs (snd (GetToken m env w)) = fs (snd (store env (TokenFile (Config_ m)) token w)) /\
  exists evs,
    trace (snd (GetToken m env w)) = (trace w ++ evs)%list /\
    length (exchanges evs) = 1%nat /\ refreshes evs = [].
Proof.
  intros Hmiss Hx Hs Hv.
  destruct (GetToken_missing m env w Hmiss) as (name & args & quiet & Hq & Heq).
  cbv zeta in Heq. rewrite Hx, Hs in Heq.
  split; [|split].
  - rewrite (NewOAuth2Client_valid m env w token _ Heq Hv). rewrite Heq. reflexivity.
  - rewrite Heq. reflexivity.
  - rewrite Heq. cbn [snd trace]. eexists. split; [reflexivity|].
    assert (Hr : refreshes quiet = []).
    { clear -Hq. induction Hq as [|ev l Hev _ IH]; [reflexivity|].
      unfold refreshes in *. simpl. rewrite IH.
      destruct ev; try discriminate; reflexivity. }
    split.
    + rewrite !exchanges_app, (quiet_exchanges _ Hq). reflexivity.
    + unfold refreshes in *. simpl. rewrite !List.filter_app, Hr. reflexivity.
Qed.

(** What [NewOAuth2Client] leaves on disk: what [GetToken] left, or what
    [store] then made of it. *)
Lemma NewOAuth2Client_fs m env w :
  let w1 := snd (GetToken m env w) in
  fs (snd (NewOAuth2Client m env w)) = fs w1 \/
  exists token,
    fs (snd (NewOAuth2Client m env w))
    = fs (snd (store env (TokenFile (Config_ m)) token w1)).
Proof.
  intros w1. subst w1.
  unfold NewOAuth2Client, TokenSource_Token, bind, log, emit, ret.
  destruct (GetToken m env w) as [[tok err] [f tr]]. simpl snd.
  destruct err as [err|]; [destruct tok; left; reflexivity|].
  destruct tok as [t|]; [|left; reflexivity].
  cbn [fs trace].
  destruct (Token_Valid _ _); [|destruct (String.eqb _ "")].
  - destruct (negb _); [|left; reflexivity].
    right. eexists. rewrite (store_frame env _ _ f tr).
    destruct (fst (store env _ _ {| fs := f; trace := tr |})); reflexivity.
  - left. reflexivity.
  - destruct (retrieveToken env _ _) as [tk|e]; [|left; reflexivity].
    destruct (negb _); [|left; reflexivity].
    right. eexists. rewrite (store_frame env _ _ f tr).
    destruct (fst (store env _ _ {| fs := f; trace := tr |})); reflexivity.
Qed.

(** X19: the token file is the only path [GetToken] and [NewOAuth2Client]
    ever write: every other path of the file system is after the call
    what it was before, whatever the outcome. *)
Theorem only_the_token_file_is_written m env w other :
  other <> TokenFile (Config_ m) ->
  fs (snd (GetToken m env w)) !! other = fs w !! other /\
  fs (snd (NewOAuth2Client m env w)) !! other = fs w !! other.
Proof.
  intros Hne.
  assert (HG : fs (snd (GetToken m env w)) !! other = fs w !! other).
  { destruct (GetToken_fs m env w) as [->|(token & ->)];
      [reflexivity | apply store_other_path, Hne]. }
  split; [exact HG|].
  destruct (NewOAuth2Client_fs m env w) as [->|(token & ->)]; [exact HG|].
  rewrite (store_other_path _ _ _ _ _ Hne). exact HG.
Qed.

(* ------------------------------------------------------------------ *)
(** ** These statements at concrete inputs *)

Lemma store_success_replaces_file_witness :
  let env := Ref.env "verifier-1" Timeout None 0 Ref.strict in
  let w := Ref.cached (Ref.encoded Ref.issued) true true in
  exists data,
    json_Marshal env Ref.refreshed = Ok data /\
    snd (store env "token.json" Ref.refreshed w)
    = {| fs := <["token.json" := File data true true]> (fs w); trace := trace w |}.
Proof.
  cbv zeta.
  apply (store_success_replaces_file (Ref.env "verifier-1" Timeout None 0 Ref.strict)
           "token.json" Ref.refreshed (Ref.cached (Ref.encoded Ref.issued) true true)).
  vm_compute. reflexivity.
Defined.

Lemma store_touches_one_path_witness :
  let env := Ref.env "verifier-1" Timeout None 0 Ref.strict in
  let w := {| fs := {[ "notes.txt" := File "keep" true true ]}; trace := [] |} in
  fs (snd (store env "token.json" Ref.issued w)) !! "notes.txt" = fs w !! "notes.txt" /\
  trace (snd (store env "token.json" Ref.issued w)) = trace w.
Proof.
  cbv zeta.
  apply (store_touches_one_path (Ref.env "verifier-1" Timeout None 0 Ref.strict)
           "token.json" Ref.issued
           {| fs := {[ "notes.txt" := File "keep" true true ]}; trace := [] |} "notes.txt").
  discriminate.
Defined.

Lemma store_failure_shape_witness :
  let env := Ref.env "verifier-1" Timeout (Some (3%nat, ENOSPC)) 0 Ref.strict in
  let w := Ref.cached (Ref.encoded Ref.issued) true true in
  let w' := snd (store env "token.json" Ref.refreshed w) in
  (w' = w /\ exists errno,
      PathError "write" "token.json" ENOSPC = PathError "open" "token.json" errno) \/
  (exists rd wr,
     (fs w' !! "token.json" = Some (File "" rd wr) /\
      exists msg, PathError "write" "token.json" ENOSPC = jsonError msg) \/
     (exists data k errno,
        json_Marshal env Ref.refreshed = Ok data /\
        fs w' !! "token.json" = Some (File (take_bytes k data) rd wr) /\
        PathError "write" "token.json" ENOSPC = PathError "write" "token.json" errno)).
Proof.
  cbv zeta.
  apply (store_failure_shape
           (Ref.env "verifier-1" Timeout (Some (3%nat, ENOSPC)) 0 Ref.strict)
           "token.json" Ref.refreshed (Ref.cached (Ref.encoded Ref.issued) true true)).
  vm_compute. reflexivity.
Defined.

Lemma flow_steps_in_order_witness :
  let env := hosted "darwin" None
               (Ref.env "verifier-1" (Redirect "code-1") None 0 Ref.strict) in
  exists name args evs,
    trace (snd (GetToken (Ref.manager "/cb") env Ref.fresh)) = (trace Ref.fresh ++ evs)%list /\
    steps evs =
      [EvAuthCodeURL (oauth2ConfigOAuth2 (Ref.manager "/cb")) "state-token"
         [AccessTypeOffline; S256ChallengeOption "verifier-1"];
       EvHandleFunc "/cb";
       EvListenAndServe ":15440";
       EvStart name args;
       EvShutdown;
       EvExchange (oauth2ConfigOAuth2 (Ref.manager "/cb")) "code-1"
         [VerifierOption "verifier-1"]].
Proof.
  cbv zeta.
  destruct (flow_steps_in_order (Ref.manager "/cb")
              (hosted "darwin" None
                 (Ref.env "verifier-1" (Redirect "code-1") None 0 Ref.strict))
              Ref.fresh)
    as (name & args & evs & Htr & _ & Hsteps); [vm_compute; reflexivity ..|].
  exists name, args, evs. split; [exact Htr | exact Hsteps].
Defined.

Lemma flow_output_goes_to_writer_witness :
  let m := {| Config_ := Ref.config ""; Writer_ := Some (CustomWriter 1) |} in
  let env := Ref.env "verifier-1" (Redirect "code-1") None 0 Ref.strict in
  exists evs,
    trace (snd (GetToken m env Ref.fresh)) = (trace Ref.fresh ++ evs)%list /\
    forall wr text, In (EvWrite wr text) evs ->
      wr = CustomWriter 1 \/
      (wr = Stdout /\ text = "Opening browser for authentication..." +:+ nl).
Proof.
  cbv zeta.
  apply (flow_output_goes_to_writer
           {| Config_ := Ref.config ""; Writer_ := Some (CustomWriter 1) |}
           (Ref.env "verifier-1" (Redirect "code-1") None 0 Ref.strict) Ref.fresh).
  vm_compute. reflexivity.
Defined.

Lemma launcher_failure_is_not_fatal_witness :
  let env := headless (errorString "exec: xdg-open: executable file not found in $PATH")
               (Ref.env "verifier-1" (Redirect "code-1") None 0 Ref.strict) in
  fst (GetToken (Ref.manager "") env Ref.fresh) = (Some Ref.issued, None).
Proof.
  cbv zeta.
  apply (launcher_failure_is_not_fatal (Ref.manager "")
           (headless (errorString "exec: xdg-open: executable file not found in $PATH")
              (Ref.env "verifier-1" (Redirect "code-1") None 0 Ref.strict))
           Ref.fresh
           (errorString "exec: xdg-open: executable file not found in $PATH") Ref.issued);
    [vm_compute; reflexivity | intros name args; reflexivity
    | vm_compute; reflexivity | vm_compute; reflexivity].
Defined.

Lemma shutdown_error_is_not_fatal_witness :
  let serr := errorString "close tcp [::]:15440: use of closed network connection" in
  let env := hosted "linux" (Some serr)
               (Ref.env "verifier-1" (Redirect "code-1") None 0 Ref.strict) in
  is_context_error serr = false /\
  fst (GetToken (Ref.manager "") env Ref.fresh) = (Some Ref.issued, None).
Proof.
  cbv zeta. split; [reflexivity|].
  apply (shutdown_error_is_not_fatal (Ref.manager "")
           (hosted "linux"
              (Some (errorString "close tcp [::]:15440: use of closed network connection"))
              (Ref.env "verifier-1" (Redirect "code-1") None 0 Ref.strict))
           Ref.fresh
           (errorString "close tcp [::]:15440: use of closed network connection")
           Ref.issued);
    vm_compute; reflexivity.
Defined.


Lemma stat_failure_is_returned_as_is_witness :
  let env := Ref.env "verifier-1" (Redirect "code-1") None 0 Ref.strict in
  let w := {| fs := {[ "token.json" := Broken EACCES ]}; trace := [] |} in
  GetToken (Ref.manager "") env w = ((None, Some (PathError "stat" "token.json" EACCES)), w) /\
  os_IsNotExist (PathError "stat" "token.json" EACCES) = false.
Proof.
  cbv zeta.
  apply (stat_failure_is_returned_as_is (Ref.manager "")
           (Ref.env "verifier-1" (Redirect "code-1") None 0 Ref.strict)
           {| fs := {[ "token.json" := Broken EACCES ]}; trace := [] |} EACCES);
    [vm_compute; reflexivity | discriminate].
Defined.

Lemma unreadable_token_file_is_an_error_witness :
  let env := Ref.env "verifier-1" (Redirect "code-1") None 0 Ref.strict in
  let w := Ref.cached (Ref.encoded Ref.issued) false true in
  exists evs,
    GetToken (Ref.manager "") env w =
      ((None, Some (wrapError "load token from file"
                      (PathError "open" "token.json" EACCES))),
       {| fs := fs w; trace := trace w ++ evs |}) /\
    steps evs = [].
Proof.
  cbv zeta.
  apply (unreadable_token_file_is_an_error (Ref.manager "")
           (Ref.env "verifier-1" (Redirect "code-1") None 0 Ref.strict)
           (Ref.cached (Ref.encoded Ref.issued) false true)
           (Ref.encoded Ref.issued) true).
  vm_compute. reflexivity.
Defined.

Lemma login_then_cache_hit_witness :
  let env := Ref.env "verifier-1" (Redirect "code-1") None 0 Ref.strict in
  let env' := Ref.env "verifier-2" Timeout None (9000 * Second) Ref.strict in
  let w1 := snd (GetToken (Ref.manager "") env Ref.fresh) in
  fst (GetToken (Ref.manager "") env Ref.fresh) = (Some Ref.issued, None) /\
  exists evs,
    GetToken (Ref.manager "") env' w1
    = ((Some Ref.issued, None), {| fs := fs w1; trace := trace w1 ++ evs |}) /\
    steps evs = [].
Proof.
  cbv zeta.
  destruct (login_then_cache_hit (Ref.manager "")
              (Ref.env "verifier-1" (Redirect "code-1") None 0 Ref.strict)
              (Ref.env "verifier-2" Timeout None (9000 * Second) Ref.strict)
              Ref.fresh Ref.issued (Ref.encoded Ref.issued))
    as (Hfst & _ & Hnext); [vm_compute; reflexivity ..|].
  split; [exact Hfst | exact Hnext].
Defined.

Lemma valid_cached_token_is_used_as_is_witness :
  let env := Ref.env "verifier-1" Timeout None (60 * Second) Ref.strict in
  let w := Ref.cached (Ref.encoded Ref.issued) true true in
  exists evs,
    NewOAuth2Client (Ref.manager "") env w =
      ((Some {| Source := {| ts_conf := oauth2ConfigOAuth2 (Ref.manager "");
                             ts_t := Ref.issued;
                             ts_refreshToken := RefreshToken Ref.issued |} |}, None),
       {| fs := fs w; trace := trace w ++ evs |}) /\
    steps evs = [].
Proof.
  cbv zeta.
  apply (valid_cached_token_is_used_as_is (Ref.manager "")
           (Ref.env "verifier-1" Timeout None (60 * Second) Ref.strict)
           (Ref.cached (Ref.encoded Ref.issued) true true)
           (Ref.encoded Ref.issued) true Ref.issued);
    vm_compute; reflexivity.
Defined.

Lemma expired_token_without_refresh_token_witness :
  let env := Ref.env "verifier-1" (Redirect "code-1") None (4000 * Second) Ref.strict in
  let w := Ref.cached (Ref.encoded Ref.spent) true true in
  exists evs,
    NewOAuth2Client (Ref.manager "") env w =
      ((None, Some (wrapError "validate/refresh token"
                      (errorString "oauth2: token expired and refresh token is not set"))),
       {| fs := fs w; trace := trace w ++ evs |}) /\
    steps evs = [].
Proof.
  cbv zeta.
  apply (expired_token_without_refresh_token (Ref.manager "")
           (Ref.env "verifier-1" (Redirect "code-1") None (4000 * Second) Ref.strict)
           (Ref.cached (Ref.encoded Ref.spent) true true)
           (Ref.encoded Ref.spent) true Ref.spent);
    vm_compute; reflexivity.
Defined.

Lemma rejected_refresh_is_an_error_witness :
  let env := Ref.env "verifier-1" (Redirect "code-1") None (4000 * Second) Ref.strict in
  let w := Ref.cached (Ref.encoded revoked) true true in
  exists evs,
    NewOAuth2Client (Ref.manager "") env w =
      ((None, Some (wrapError "validate/refresh token"
                      (errorString "oauth2: cannot fetch token: 400 Bad Request"))),
       {| fs := fs w; trace := trace w ++ evs |}) /\
    steps evs = [EvRefresh (oauth2ConfigOAuth2 (Ref.manager "")) "refresh-0"].
Proof.
  cbv zeta.
  apply (rejected_refresh_is_an_error (Ref.manager "")
           (Ref.env "verifier-1" (Redirect "code-1") None (4000 * Second) Ref.strict)
           (Ref.cached (Ref.encoded revoked) true true)
           (Ref.encoded revoked) true revoked);
    [vm_compute; reflexivity | vm_compute; reflexivity | vm_compute; reflexivity
    | vm_compute; discriminate | vm_compute; reflexivity].
Defined.

Lemma first_login_yields_a_client_witness :
  let env := Ref.env "verifier-1" (Redirect "code-1") None (60 * Second) Ref.strict in
  NewOAuth2Client (Ref.manager "") env Ref.fresh =
    ((Some {| Source := {| ts_conf := oauth2ConfigOAuth2 (Ref.manager "");
                           ts_t := Ref.issued;
                           ts_refreshToken := RefreshToken Ref.issued |} |}, None),
     snd (GetToken (Ref.manager "") env Ref.fresh)).
Proof.
  cbv zeta.
  apply (first_login_yields_a_client (Ref.manager "")
           (Ref.env "verifier-1" (Redirect "code-1") None (60 * Second) Ref.strict)
           Ref.fresh Ref.issued);
    vm_compute; reflexivity.
Defined.

Lemma only_the_token_file_is_written_witness :
  let env := Ref.env "verifier-1" (Redirect "code-1") None (60 * Second) Ref.strict in
  let w := {| fs := {[ "notes.txt" := File "keep" true true ]}; trace := [] |} in
  fs (snd (GetToken (Ref.manager "") env w)) !! "notes.txt" = fs w !! "notes.txt" /\
  fs (snd (NewOAuth2Client (Ref.manager "") env w)) !! "notes.txt" = fs w !! "notes.txt".
Proof.
  cbv zeta.
  apply (only_the_token_file_is_written (Ref.manager "")
           (Ref.env "verifier-1" (Redirect "code-1") None (60 * Second) Ref.strict)
           {| fs := {[ "notes.txt" := File "keep" true true ]}; trace := [] |} "notes.txt").
  vm_compute. discriminate.
Defined.

(* ------------------------------------------------------------------ *)
(** ** A refresh is paid once *)

(** What a successful, persisted refresh leaves on disk. *)
Lemma NewOAuth2Client_refresh_stored m env w data wr (t t' : Token) data' :
  fs w !! TokenFile (Config_ m) = Some (File data true wr) ->
  json_Decode env data zeroToken = (t, None) ->
  Token_Valid (timeNow env) t = false ->
  RefreshToken t <> "" ->
  retrieveToken env (oauth2ConfigOAuth2 m) (RefreshToken t) = Ok t' ->
  AccessToken t' <> AccessToken t ->
  fst (store env (TokenFile (Config_ m)) t' w) = None ->
  json_Marshal env t' = Ok data' ->
  exists wr' evs,
    fs (snd (NewOAuth2Client m env w)) !! TokenFile (Config_ m)
      = Some (File data' true wr') /\
    trace (snd (NewOAuth2Client m env w)) = (trace w ++ evs)%list /\
    refreshes evs = [EvRefresh (oauth2ConfigOAuth2 m) (RefreshToken t)].
Proof.
  intros Hn Hd Hv Hrt Hr Hne Hs Hm.
  assert (HG := GetToken_existing m env w data wr Hn). rewrite Hd in HG. simpl in HG.
  apply String.eqb_neq in Hrt. apply String.eqb_neq in Hne.
  assert (HN : exists evs,
             snd (NewOAuth2Client m env w)
             = {| fs := fs (snd (store env (TokenFile (Config_ m)) t' w));
                  trace := trace w ++ evs |} /\
             refreshes evs = [EvRefresh (oauth2ConfigOAuth2 m) (RefreshToken t)]).
  { unfold NewOAuth2Client. unfold bind at 1. rewrite HG. cbv beta iota.
    unfold bind at 1. unfold TokenSource_Token, TokenSource_, Config_TokenSource.
    cbn [ts_t ts_refreshToken ts_conf].
    rewrite Hv, Hrt. unfold bind at 1. rewrite emit_add. rewrite Hr.
    unfold ret at 1. cbv beta iota. rewrite Hne. simpl negb. cbv iota.
    unfold bind at 1. unfold bind at 1.
    destruct w as [f tr]. unfold add. simpl fs. simpl trace.
    rewrite (store_frame env _ t' f tr). rewrite Hs. unfold ret. cbn [snd].
    eexists. split; [rewrite <- app_assoc; reflexivity | reflexivity]. }
  destruct HN as (evs & -> & Hrf). cbn [fs trace].
  destruct (store env (TokenFile (Config_ m)) t' w) as [r ws] eqn:Hst.
  simpl in Hs. subst r. cbn [snd].
  destruct (store_succeeds _ _ _ _ _ Hst) as (data'' & wr' & Hm' & Hn').
  rewrite Hm in Hm'. injection Hm' as <-.
  exists wr', evs. split; [exact Hn'|]. split; [reflexivity | exact Hrf].
Qed.

(** X20: a refresh is paid once: after [NewOAuth2Client] has refreshed an
    expired credential and stored the new one, the next call, while the
    new credential is valid, returns a client holding it without any
    request to the provider. *)
Theorem refresh_then_cache_hit m env env' w data wr (t t' : Token) data' :
  fs w !! TokenFile (Config_ m) = Some (File data true wr) ->
  json_Decode env data zeroToken = (t, None) ->
  Token_Valid (timeNow env) t = false ->
  RefreshToken t <> "" ->
  retrieveToken env (oauth2ConfigOAuth2 m) (RefreshToken t) = Ok t' ->
  AccessToken t' <> AccessToken t ->
  fst (store env (TokenFile (Config_ m)) t' w) = None ->
  json_Marshal env t' = Ok data' ->
  json_Decode env' data' zeroToken = (t', None) ->
  Token_Valid (timeNow env') t' = true ->
  let w1 := snd (NewOAuth2Client m env w) in
  (exists evs, trace w1 = (trace w ++ evs)%list /\ length (refreshes evs) = 1%nat) /\
  exists evs',
    NewOAuth2Client m env' w1 =
      ((Some {| Source := {| ts_conf := oauth2ConfigOAuth2 m; ts_t := t';
                             ts_refreshToken := RefreshToken t' |} |}, None),
       {| fs := fs w1; trace := trace w1 ++ evs' |}) /\
    steps evs' = [].
Proof.
  intros Hn Hd Hv Hrt Hr Hne Hs Hm Hd' Hv' w1.
  destruct (NewOAuth2Client_refresh_stored m env w data wr t t' data'
              Hn Hd Hv Hrt Hr Hne Hs Hm) as (wr' & evs & Hn1 & Htr & Hrf).
  fold w1 in Hn1, Htr. split.
  - exists evs. split; [exact Htr|]. rewrite Hrf. reflexivity.
  - assert (HG := GetToken_existing m env' w1 data' wr' Hn1).
    rewrite Hd' in HG. simpl in HG.
    rewrite (NewOAuth2Client_valid m env' w1 t' _ HG Hv').
    eexists. split; reflexivity.
Qed.

Lemma refresh_then_cache_hit_witness :
  let env := Ref.env "verifier-1" Timeout None (4000 * Second) Ref.strict in
  let env' := Ref.env "verifier-2" Timeout None (5000 * Second) Ref.strict in
  let w := Ref.cached (Ref.encoded Ref.issued) true true in
  let w1 := snd (NewOAuth2Client (Ref.manager "") env w) in
  exists evs',
    NewOAuth2Client (Ref.manager "") env' w1 =
      ((Some {| Source := {| ts_conf := oauth2ConfigOAuth2 (Ref.manager "");
                             ts_t := Ref.refreshed;
                             ts_refreshToken := RefreshToken Ref.refreshed |} |}, None),
       {| fs := fs w1; trace := trace w1 ++ evs' |}) /\
    steps evs' = [].
Proof.
  cbv zeta.
  destruct (refresh_then_cache_hit (Ref.manager "")
              (Ref.env "verifier-1" Timeout None (4000 * Second) Ref.strict)
              (Ref.env "verifier-2" Timeout None (5000 * Second) Ref.strict)
              (Ref.cached (Ref.encoded Ref.issued) true true)
              (Ref.encoded Ref.issued) true Ref.issued Ref.refreshed
              (Ref.encoded Ref.refreshed))
    as (_ & Hnext);
    [vm_compute; reflexivity | vm_compute; reflexivity | vm_compute; reflexivity
    | vm_compute; discriminate | vm_compute; reflexivity | vm_compute; discriminate
    | vm_compute; reflexivity | vm_compute; reflexivity | vm_compute; reflexivity
    | vm_compute; reflexivity | ].
  exact Hnext.
Defined.

Lemma results_are_value_xor_error_witness :
  let env := Ref.env "verifier-1" (Redirect "code-9") None 0 Ref.strict in
  freshMux Ref.fresh = true /\
  plainPattern (callbackPath (Config_ (Ref.manager "/cb"))) = true /\
  fst (GetToken (Ref.manager "/cb") env Ref.fresh)
    = (None, Some (wrapError "token exchange"
                     (errorString "oauth2: cannot fetch token: 400 Bad Request"))) /\
  match fst (NewOAuth2Client (Ref.manager "/cb") env Ref.fresh) with
  | (Some _, None) | (None, Some _) => True
  | _ => False
  end.
Proof.
  cbv zeta. split; [reflexivity|]. split; [reflexivity|].
  split; [vm_compute; reflexivity|].
  apply (results_are_value_xor_error (Ref.manager "/cb")
           (Ref.env "verifier-1" (Redirect "code-9") None 0 Ref.strict) Ref.fresh);
    reflexivity.
Defined.
